(** * Real-time object detection loop: camera handler, detector, session

    A shallow embedding of [config.py], [camera_handler.py], [detector.py]
    and [main.py].  Python objects are records, attribute assignment is
    explicit state passing in a small state-and-exception monad, numpy
    frames live in a store keyed by object identity (so aliasing is
    visible), and everything outside the repository (OpenCV, the YOLO
    model, the clock, the keyboard) is an outcome supplied by the caller
    of each operation.  Wall-clock times and rates are exact rationals. *)

From Stdlib Require Import ZArith QArith Qround Qabs Lia Ascii String.
From stdpp Require Import gmap strings list pretty.

Local Open Scope Z_scope.

(** ** config.py *)

Module Config.
Definition MODEL_NAME : string := "yolov8n.pt".
(* os.path.join("models", MODEL_NAME) *)
Definition MODEL_PATH : string := "models/" +:+ MODEL_NAME.

Definition CONFIDENCE_THRESHOLD : Q := 5 # 10.
Definition IOU_THRESHOLD : Q := 45 # 100.

Definition CAMERA_ID : Z := 0.
Definition CAMERA_WIDTH : Z := 640.
Definition CAMERA_HEIGHT : Z := 480.
Definition CAMERA_FPS : Z := 30.

Definition SHOW_FPS : bool := true.
Definition SHOW_CONFIDENCE : bool := true.
Definition SHOW_LABELS : bool := true.
Definition WINDOW_NAME : string := "Object Detection - YOLOv8".

Definition BOX_COLOR : Z * Z * Z := (0, 255, 0).
Definition TEXT_COLOR : Z * Z * Z := (255, 255, 255).
Definition TEXT_BG_COLOR : Z * Z * Z := (0, 255, 0).
Definition FPS_COLOR : Z * Z * Z := (0, 255, 255).

Definition FONT : Z := 0.
Definition FONT_SCALE : Q := 6 # 10.
Definition FONT_THICKNESS : Z := 2.
Definition BOX_THICKNESS : Z := 2.

Definition ENABLE_RECORDING : bool := false.
Definition OUTPUT_DIR : string := "outputs".
Definition SAVE_DETECTIONS : bool := false.

Definition USE_GPU : bool := true.
End Config.

(** ** Text formatting *)

Definition NL : string := String "010"%char EmptyString.

Fixpoint str_repeat (s : string) (n : nat) : string :=
  match n with
  | O => EmptyString
  | S n' => s +:+ str_repeat s n'
  end.

(* Left-pads a decimal with zeros up to [width] characters. *)
Definition zero_pad (width : nat) (s : string) : string :=
  str_repeat "0" (width - String.length s) +:+ s.

(* Rounds to the nearest integer, ties to the even one. *)
Definition round_half_even (q : Q) : Z :=
  let fl := Qfloor q in
  let twice := Qfloor (q * 2) - 2 * fl in   (* 0: below the half, 1: at or above *)
  if twice =? 0 then fl
  else if Qeq_bool (q * 2) (inject_Z (2 * fl + 1))
       then (if Z.even fl then fl else fl + 1)
       else fl + 1.

(* format(q, ".<digits>f") on the exact value of [q]. *)
Definition format_fixed (digits : nat) (q : Q) : string :=
  let scale := 10 ^ Z.of_nat digits in
  let n := round_half_even (Qabs q * inject_Z scale) in
  let sign := if Qlt_le_dec q 0 then "-" else EmptyString in
  let whole := pretty (Z.to_N (n / scale)) in
  match digits with
  | O => sign +:+ whole
  | _ => sign +:+ whole +:+ "." +:+ zero_pad digits (pretty (Z.to_N (n mod scale)))
  end.

(* datetime.now() *)
Record datetime := {
  year : N; month : N; day : N;
  hour : N; minute : N; second : N
}.

(* strftime("%Y%m%d_%H%M%S") *)
Definition strftime_stamp (d : datetime) : string :=
  zero_pad 4 (pretty d.(year)) +:+ zero_pad 2 (pretty d.(month))
  +:+ zero_pad 2 (pretty d.(day)) +:+ "_"
  +:+ zero_pad 2 (pretty d.(hour)) +:+ zero_pad 2 (pretty d.(minute))
  +:+ zero_pad 2 (pretty d.(second)).

(** ** Frames, drawing primitives, the object store *)

Definition Point : Type := Z * Z.
Definition Color : Type := Z * Z * Z.

(* The calls into cv2's drawing API, with the arguments the code passes. *)
Inductive DrawOp :=
| Rectangle (pt1 pt2 : Point) (color : Color) (thickness : Z)
| PutText (text : string) (org : Point) (font : Z) (scale : Q)
          (color : Color) (thickness : Z)
| Circle (center : Point) (radius : Z) (color : Color) (thickness : Z).

(* A numpy image: its shape, the sensor payload it was read with, and the
   drawing calls applied to it since, oldest first. *)
Record Frame := {
  rows : Z;            (* shape[0] *)
  cols : Z;            (* shape[1] *)
  payload : nat;
  drawn : list DrawOp
}.

Definition paint (op : DrawOp) (f : Frame) : Frame :=
  {| rows := f.(rows); cols := f.(cols); payload := f.(payload);
     drawn := f.(drawn) ++ [op] |}.

(* The pixels of a drawing call.  cv2 passes the coordinates it is given
   to its rasteriser: a rectangle of negative thickness is filled, covering
   every point of the closed box spanned by its two corners; what an
   outline, a text or a circle covers is left to [ink], the rasteriser's
   choice.  A numpy array holds the pixels 0 <= x < shape[1],
   0 <= y < shape[0] and no other, and cv2's drawing functions clip to the
   image: of the points a call covers, the ones it writes are those that
   are pixels of the array.  The clipping is OpenCV's; the repository's
   code has none of its own. *)
Definition in_box (pt1 pt2 p : Point) : bool :=
  (Z.min pt1.1 pt2.1 <=? p.1) && (p.1 <=? Z.max pt1.1 pt2.1)
  && (Z.min pt1.2 pt2.2 <=? p.2) && (p.2 <=? Z.max pt1.2 pt2.2).

Definition covers (ink : DrawOp → Point → bool) (op : DrawOp) (p : Point) : bool :=
  match op with
  | Rectangle pt1 pt2 _ thickness =>
      if thickness <? 0 then in_box pt1 pt2 p else ink op p
  | _ => ink op p
  end.

Definition has_pixel (f : Frame) (p : Point) : bool :=
  (0 <=? p.1) && (p.1 <? f.(cols)) && (0 <=? p.2) && (p.2 <? f.(rows)).

Definition writes (ink : DrawOp → Point → bool) (f : Frame) (op : DrawOp)
    (p : Point) : bool :=
  covers ink op p && has_pixel f p.

(* cv2.VideoWriter(filename, fourcc, fps, frame_size) *)
Record VideoWriter := {
  w_filename : string;
  w_fourcc : string;
  w_fps : Z;
  w_frame_size : Z * Z
}.

(* Everything the program does to the outside world, in order. *)
Inductive Event :=
| Print (line : string)
| VideoCaptureOpen (device : Z)
| CapRelease (device : Z)
| Sleep (seconds : Z)
| Makedirs (path : string)
| WriterOpen (w : VideoWriter)
| WriterWrite (w : VideoWriter) (image : Frame)
| WriterRelease (w : VideoWriter)
| Imshow (window : string) (image : Frame)
| Imwrite (filename : string) (image : Frame)
| DestroyAllWindows.

Record World := {
  arrays : gmap nat Frame;   (* live numpy arrays by identity *)
  next_id : nat;             (* identity of the next allocation *)
  trace : list Event
}.

(** ** Exceptions and the state monad of method bodies *)

Inductive Exn :=
| Exception (msg : string)
| KeyboardInterrupt.

Inductive Result (A : Type) :=
| Ok (a : A)
| Raise (e : Exn).
Arguments Ok {A} a.
Arguments Raise {A} e.

(* A method of an object of type [S]: it may update the object and the
   world, and returns or raises.  Updates made before a raise persist. *)
Definition Py (S A : Type) : Type := S → World → Result A * S * World.

Definition ret {S A} (a : A) : Py S A := λ s w, (Ok a, s, w).

Definition bind {S A B} (m : Py S A) (k : A → Py S B) : Py S B :=
  λ s w, match m s w with
         | (Ok a, s', w') => k a s' w'
         | (Raise e, s', w') => (Raise e, s', w')
         end.

Notation "'do' x <- m ; k" := (bind m (λ x, k))
  (at level 10, x name, m at level 100, k at level 200).
Notation "'do' ' pat <- m ; k" := (bind m (λ x, match x with pat => k end))
  (at level 10, pat pattern, m at level 100, k at level 200).

Definition raise {S A} (e : Exn) : Py S A := λ s w, (Raise e, s, w).

Definition lift {S A} (r : Result A) : Py S A := λ s w, (r, s, w).

Definition self {S} : Py S S := λ s w, (Ok s, s, w).
Definition assign {S} (f : S → S) : Py S unit := λ s w, (Ok tt, f s, w).

Definition emit {S} (e : Event) : Py S unit :=
  λ s w, (Ok tt, s,
          {| arrays := w.(arrays); next_id := w.(next_id);
             trace := w.(trace) ++ [e] |}).

Definition print {S} (line : string) : Py S unit := emit (Print line).

(* try: body / except Exception as e: handler e *)
Definition try_except {S A} (body : Py S A) (handler : string → Py S A) : Py S A :=
  λ s w, match body s w with
         | (Raise (Exception msg), s', w') => handler msg s' w'
         | r => r
         end.

(* Runs a method of a component held in a field of the enclosing object. *)
Definition on {T S A} (get : T → S) (set : S → T → T) (m : Py S A) : Py T A :=
  λ t w, match m (get t) w with
         | (r, s', w') => (r, set s' t, w')
         end.

(* A fresh array holding [f]. *)
Definition alloc {S} (f : Frame) : Py S nat :=
  λ s w, (Ok w.(next_id), s,
          {| arrays := <[w.(next_id) := f]> w.(arrays);
             next_id := Datatypes.S w.(next_id);
             trace := w.(trace) |}).

(* In-place drawing on the array [r]. *)
Definition draw {S} (r : nat) (op : DrawOp) : Py S unit :=
  λ s w, (Ok tt, s,
          {| arrays := alter (paint op) r w.(arrays);
             next_id := w.(next_id);
             trace := w.(trace) |}).

(* The world as it is now, for the calls that look an array up. *)
Definition world {S} : Py S World := λ s w, (Ok w, s, w).

(** ** camera_handler.py *)

(* int(x) on a float: truncation towards zero. *)
Definition int_of_float (q : Q) : Z := Z.quot (Qnum q) (Z.pos (Qden q)).

(* A cv2.VideoCapture object: the device index it was built for, whether
   the device is open, and the properties the device reports. *)
Record VideoCapture := {
  device : Z;
  opened : bool;                 (* isOpened() *)
  prop_width : Q;                (* get(CAP_PROP_FRAME_WIDTH) *)
  prop_height : Q;               (* get(CAP_PROP_FRAME_HEIGHT) *)
  prop_fps : Q;                  (* get(CAP_PROP_FPS), the negotiated rate *)
  backend_name : string          (* getBackendName() *)
}.

(* What cv2.VideoCapture(camera_id) and the property calls after it do. *)
Inductive OpenOutcome :=
| OpenRaises (msg : string)                     (* the constructor raises *)
| OpenClosed                                    (* built, isOpened() is False *)
| OpenPropsRaise (msg : string)                 (* opened, set()/get() raises *)
| OpenReady (width height fps : Q) (backend : string).

(* What cap.read() does. *)
Inductive ReadOutcome :=
| ReadRaises (msg : string)
| ReadReturns (ok : bool) (image : option (Z * Z * nat)).

Record CameraHandler := {
  camera_id : Z;
  cap : option VideoCapture;
  is_opened : bool
}.

Definition set_cap (c : option VideoCapture) (h : CameraHandler) : CameraHandler :=
  {| camera_id := h.(camera_id); cap := c; is_opened := h.(is_opened) |}.
Definition set_is_opened (b : bool) (h : CameraHandler) : CameraHandler :=
  {| camera_id := h.(camera_id); cap := h.(cap); is_opened := b |}.

Definition closed_capture (dev : Z) : VideoCapture :=
  {| device := dev; opened := false; prop_width := 0; prop_height := 0;
     prop_fps := 0; backend_name := EmptyString |}.

(* cap.release() on the cv2 object *)
Definition released (c : VideoCapture) : VideoCapture :=
  {| device := c.(device); opened := false; prop_width := c.(prop_width);
     prop_height := c.(prop_height); prop_fps := c.(prop_fps);
     backend_name := c.(backend_name) |}.

Definition _initialize_camera (o : OpenOutcome) : Py CameraHandler bool :=
  try_except
    (do h <- self;
     do _ <- print ("Initializing camera " +:+ pretty h.(camera_id) +:+ "...");
     do _ <- emit (VideoCaptureOpen h.(camera_id));
     match o with
     | OpenRaises msg => raise (Exception msg)
     | OpenClosed =>
         do _ <- assign (set_cap (Some (closed_capture h.(camera_id))));
         do _ <- print ("Failed to open camera " +:+ pretty h.(camera_id));
         ret false
     | OpenPropsRaise msg =>
         do _ <- assign (set_cap (Some
                   {| device := h.(camera_id); opened := true; prop_width := 0;
                      prop_height := 0; prop_fps := 0; backend_name := EmptyString |}));
         raise (Exception msg)
     | OpenReady width height fps backend =>
         do _ <- assign (set_cap (Some
                   {| device := h.(camera_id); opened := true; prop_width := width;
                      prop_height := height; prop_fps := fps;
                      backend_name := backend |}));
         let actual_width := int_of_float width in
         let actual_height := int_of_float height in
         let actual_fps := int_of_float fps in
         do _ <- print "Camera initialized successfully!";
         do _ <- print ("Resolution: " +:+ pretty actual_width +:+ "x"
                        +:+ pretty actual_height);
         do _ <- print ("FPS: " +:+ pretty actual_fps);
         do _ <- assign (set_is_opened true);
         ret true
     end)
    (λ e,
     do _ <- print ("Error initializing camera: " +:+ e);
     do _ <- assign (set_is_opened false);
     ret false).

(* CameraHandler(camera_id, Config) *)
Definition CameraHandler_init (id : Z) (o : OpenOutcome)
  : World → bool * CameraHandler * World :=
  λ w, match _initialize_camera o
               {| camera_id := id; cap := None; is_opened := false |} w with
       | (Ok b, h, w') => (b, h, w')
       | (Raise _, h, w') => (false, h, w')
       end.

Definition read_frame (o : ReadOutcome) : Py CameraHandler (bool * option nat) :=
  do h <- self;
  if negb h.(is_opened) || bool_decide (h.(cap) = None) then ret (false, None)
  else
    try_except
      (match o with
       | ReadRaises msg => raise (Exception msg)
       | ReadReturns ok image =>
           do frame <- match image with
                       | Some (r, c, p) =>
                           do i <- alloc {| rows := r; cols := c; payload := p;
                                            drawn := [] |};
                           ret (Some i)
                       | None => ret None
                       end;
           if negb ok then
             do _ <- print "Failed to read frame from camera";
             ret (false, None)
           else ret (true, frame)
       end)
      (λ e,
       do _ <- print ("Error reading frame: " +:+ e);
       ret (false, None)).

Definition release : Py CameraHandler unit :=
  do h <- self;
  match h.(cap) with
  | Some c =>
      do _ <- emit (CapRelease c.(device));
      do _ <- assign (set_cap (Some (released c)));
      do _ <- assign (set_is_opened false);
      print "Camera released"
  | None => ret tt
  end.

Definition reconnect (o : OpenOutcome) : Py CameraHandler bool :=
  do _ <- print "Attempting to reconnect camera...";
  do _ <- release;
  do _ <- emit (Sleep 1);
  _initialize_camera o.

Record CameraInfo := {
  info_camera_id : Z;
  info_width : Z;
  info_height : Z;
  info_fps : Z;
  info_backend : string
}.

(* The empty dict is [None]. *)
Definition get_camera_info (h : CameraHandler) : option CameraInfo :=
  match h.(cap) with
  | Some c =>
      if negb h.(is_opened) then None
      else Some {| info_camera_id := h.(camera_id);
                   info_width := int_of_float c.(prop_width);
                   info_height := int_of_float c.(prop_height);
                   info_fps := int_of_float c.(prop_fps);
                   info_backend := c.(backend_name) |}
  | None => None
  end.

Definition is_available (h : CameraHandler) : bool :=
  h.(is_opened) &&
  match h.(cap) with
  | Some c => c.(opened)
  | None => false
  end.

(* Whether the handler's capture object holds an open device: the handle
   that cap.release() gives back.  On a capture whose device is closed,
   cap.release() has nothing to give back ([released] leaves it closed). *)
Definition device_open (h : CameraHandler) : bool :=
  match h.(cap) with
  | Some c => c.(opened)
  | None => false
  end.

(* CameraHandler.list_available_cameras: [openable i] tells whether
   cv2.VideoCapture(i).isOpened() holds. *)
Fixpoint probe_cameras {S} (openable : Z → bool) (ids : list Z) : Py S (list Z) :=
  match ids with
  | [] => ret []
  | i :: rest =>
      do _ <- emit (VideoCaptureOpen i);
      if openable i then
        do _ <- emit (CapRelease i);
        do found <- probe_cameras openable rest;
        ret (i :: found)
      else probe_cameras openable rest
  end.

Definition list_available_cameras {S} (openable : Z → bool) (max_cameras : nat)
  : Py S (list Z) :=
  probe_cameras openable (Z.of_nat <$> seq 0 max_cameras).

(** ** detector.py *)

(* One box of a YOLO result, as the tensors hold it. *)
Record RawBox := {
  xyxy : Q * Q * Q * Q;
  conf : Q;
  cls : Q
}.

Record Detection := {
  bbox : Z * Z * Z * Z;
  confidence : Q;
  class_id : Z;
  class_name : string
}.

(* What YOLO(path) does, and what calling the model on a frame does. *)
Inductive YoloOutcome :=
| YoloRaises (msg : string)
| YoloLoads (names : gmap Z string).

Inductive InferOutcome :=
| InferRaises (e : Exn)
| InferReturns (results : list (list RawBox)).

Record Model := { names : gmap Z string }.

Record ObjectDetector := {
  model_path : string;
  model : option Model;
  class_names : gmap Z string;
  fps : Q;
  frame_count : Z;
  start_time : Q
}.

Definition set_model (m : option Model) (d : ObjectDetector) : ObjectDetector :=
  {| model_path := d.(model_path); model := m; class_names := d.(class_names);
     fps := d.(fps); frame_count := d.(frame_count); start_time := d.(start_time) |}.
Definition set_class_names (n : gmap Z string) (d : ObjectDetector) : ObjectDetector :=
  {| model_path := d.(model_path); model := d.(model); class_names := n;
     fps := d.(fps); frame_count := d.(frame_count); start_time := d.(start_time) |}.
Definition set_fps (q : Q) (d : ObjectDetector) : ObjectDetector :=
  {| model_path := d.(model_path); model := d.(model); class_names := d.(class_names);
     fps := q; frame_count := d.(frame_count); start_time := d.(start_time) |}.
Definition set_frame_count (n : Z) (d : ObjectDetector) : ObjectDetector :=
  {| model_path := d.(model_path); model := d.(model); class_names := d.(class_names);
     fps := d.(fps); frame_count := n; start_time := d.(start_time) |}.
Definition set_start_time (t : Q) (d : ObjectDetector) : ObjectDetector :=
  {| model_path := d.(model_path); model := d.(model); class_names := d.(class_names);
     fps := d.(fps); frame_count := d.(frame_count); start_time := t |}.

(* YOLO(path) *)
Definition YOLO {S} (o : YoloOutcome) : Py S Model :=
  match o with
  | YoloRaises msg => raise (Exception msg)
  | YoloLoads n => ret {| names := n |}
  end.

Definition _load_model (first fallback : YoloOutcome) : Py ObjectDetector unit :=
  try_except
    (do d <- self;
     do _ <- print ("Loading model: " +:+ d.(model_path));
     do m <- YOLO first;
     do _ <- assign (set_model (Some m));
     do _ <- assign (set_class_names m.(names));
     do _ <- print "Model loaded successfully!";
     do _ <- print ("Available classes: " +:+ pretty (size m.(names)));
     if Config.USE_GPU then print "Using GPU acceleration (if available)"
     else print "Using CPU only")
    (λ e,
     do _ <- print ("Error loading model: " +:+ e);
     do _ <- print "Model will be downloaded automatically on first use.";
     do m <- YOLO fallback;
     do _ <- assign (set_model (Some m));
     assign (set_class_names m.(names))).

(* model_path or config.MODEL_PATH: None and the empty string are falsy. *)
Definition path_or_default (path : option string) : string :=
  match path with
  | Some (String c rest) => String c rest
  | Some EmptyString | None => Config.MODEL_PATH
  end.

(* ObjectDetector(config=Config); [now] is time.time(). *)
Definition ObjectDetector_init (path : option string) (now : Q)
    (first fallback : YoloOutcome) : World → Result unit * ObjectDetector * World :=
  _load_model first fallback
    {| model_path := path_or_default path;
       model := None; class_names := ∅;
       fps := 0; frame_count := 0; start_time := now |}.

(* frame.copy(): an identity that holds no array has no such method. *)
Definition copy {S} (frame : nat) : Py S nat :=
  do w <- world;
  match w.(arrays) !! frame with
  | Some f => alloc f
  | None => raise (Exception "object has no attribute 'copy'")
  end.

(* The array behind an identity, for the calls that consume its pixels. *)
Definition pixels {S} (frame : nat) : Py S Frame :=
  do w <- world;
  match w.(arrays) !! frame with
  | Some f => ret f
  | None => raise (Exception "not an image")
  end.

(* The body of the two loops over results and boxes; the lookup of the
   class name raises KeyError when the model reports an unknown class. *)
Fixpoint collect (class_names : gmap Z string) (boxes : list RawBox)
  : Result (list Detection) :=
  match boxes with
  | [] => Ok []
  | box :: rest =>
      let '(x1, y1, x2, y2) := box.(xyxy) in
      let confidence := box.(conf) in
      let class_id := int_of_float box.(cls) in
      match class_names !! class_id with
      | None => Raise (Exception (pretty class_id))
      | Some class_name =>
          let detection :=
            {| bbox := (int_of_float x1, int_of_float y1,
                        int_of_float x2, int_of_float y2);
               confidence := confidence;
               class_id := class_id;
               class_name := class_name |} in
          match collect class_names rest with
          | Ok detections => Ok (detection :: detections)
          | Raise e => Raise e
          end
      end
  end.

Section Detector.

(* cv2.getTextSize(text, font, scale, thickness) = ((width, height), baseline) *)
Variable getTextSize : string → Z → Q → Z → (Z * Z) * Z.

Definition label_of (det : Detection) : string :=
  if Config.SHOW_CONFIDENCE
  then det.(class_name) +:+ ": " +:+ format_fixed 2 det.(confidence)
  else det.(class_name).

Fixpoint _draw_annotations {S} (frame : nat) (detections : list Detection)
  : Py S nat :=
  match detections with
  | [] => ret frame
  | det :: rest =>
      let '(x1, y1, x2, y2) := det.(bbox) in
      do _ <- draw frame (Rectangle (x1, y1) (x2, y2)
                            Config.BOX_COLOR Config.BOX_THICKNESS);
      let label := label_of det in
      let '((label_width, label_height), baseline) :=
        getTextSize label Config.FONT Config.FONT_SCALE Config.FONT_THICKNESS in
      do _ <- draw frame (Rectangle (x1, y1 - label_height - baseline - 5)
                            (x1 + label_width, y1) Config.TEXT_BG_COLOR (-1));
      do _ <- draw frame (PutText label (x1, y1 - baseline - 5) Config.FONT
                            Config.FONT_SCALE Config.TEXT_COLOR
                            Config.FONT_THICKNESS);
      _draw_annotations frame rest
  end.

Definition detect_objects (frame : nat) (o : InferOutcome)
  : Py ObjectDetector (nat * list Detection) :=
  do d <- self;
  match d.(model) with
  | None => ret (frame, [])
  | Some _ =>
      try_except
        (do results <- match o with
                       | InferRaises e => raise e
                       | InferReturns results => ret results
                       end;
         do detections <- lift (collect d.(class_names) (concat results));
         do fresh_copy <- copy frame;
         do annotated_frame <- _draw_annotations fresh_copy detections;
         ret (annotated_frame, detections))
        (λ e,
         do _ <- print ("Detection error: " +:+ e);
         ret (frame, []))
  end.

(* [now1] and [now2] are the two readings of time.time(). *)
Definition calculate_fps (now1 now2 : Q) : Py ObjectDetector Q :=
  do d <- self;
  do _ <- assign (set_frame_count (d.(frame_count) + 1));
  do d <- self;
  let elapsed_time := (now1 - d.(start_time))%Q in
  do _ <- (if Qlt_le_dec 1 elapsed_time then
             do _ <- assign (set_fps (inject_Z d.(frame_count) / elapsed_time)%Q);
             do _ <- assign (set_frame_count 0);
             assign (set_start_time now2)
           else ret tt);
  do d <- self;
  ret d.(fps).

Definition draw_fps (frame : nat) (now1 now2 : Q) : Py ObjectDetector nat :=
  do fps <- calculate_fps now1 now2;
  let fps_text := "FPS: " +:+ format_fixed 1 fps in
  do _ <- draw frame (PutText fps_text (10, 30) Config.FONT Config.FONT_SCALE
                        Config.FPS_COLOR Config.FONT_THICKNESS);
  ret frame.

Record ModelInfo := {
  mi_model_path : string;
  mi_num_classes : nat;
  mi_class_names : gmap Z string;
  mi_confidence_threshold : Q
}.

Definition get_model_info (d : ObjectDetector) : ModelInfo :=
  {| mi_model_path := d.(model_path);
     mi_num_classes := size d.(class_names);
     mi_class_names := d.(class_names);
     mi_confidence_threshold := Config.CONFIDENCE_THRESHOLD |}.

End Detector.

(** ** main.py *)

Record ObjectDetectionSystem := {
  camera : CameraHandler;
  detector : ObjectDetector;
  is_running : bool;
  video_writer : option VideoWriter
}.

Definition set_camera (c : CameraHandler) (s : ObjectDetectionSystem) :=
  {| camera := c; detector := s.(detector); is_running := s.(is_running);
     video_writer := s.(video_writer) |}.
Definition set_detector (d : ObjectDetector) (s : ObjectDetectionSystem) :=
  {| camera := s.(camera); detector := d; is_running := s.(is_running);
     video_writer := s.(video_writer) |}.
Definition set_is_running (b : bool) (s : ObjectDetectionSystem) :=
  {| camera := s.(camera); detector := s.(detector); is_running := b;
     video_writer := s.(video_writer) |}.
Definition set_video_writer (v : option VideoWriter) (s : ObjectDetectionSystem) :=
  {| camera := s.(camera); detector := s.(detector); is_running := s.(is_running);
     video_writer := v |}.

Definition on_camera {A} : Py CameraHandler A → Py ObjectDetectionSystem A :=
  on camera set_camera.
Definition on_detector {A} : Py ObjectDetector A → Py ObjectDetectionSystem A :=
  on detector set_detector.

(* What video_writer.write(frame) does. *)
Inductive WriteOutcome :=
| WriteOk
| WriteRaises (msg : string).

(* Everything one pass through the loop body asks of the outside. *)
Record Tick := {
  t_read : ReadOutcome;        (* cap.read() *)
  t_reopen : OpenOutcome;      (* cv2.VideoCapture(...) inside reconnect() *)
  t_infer : InferOutcome;      (* self.model(frame, ...) *)
  t_clock : Q * Q;             (* the two time.time() of calculate_fps *)
  t_write : WriteOutcome;      (* video_writer.write(...) *)
  t_key : Z;                   (* cv2.waitKey(1) *)
  t_now : datetime             (* datetime.now() *)
}.

(* Config.create_directories() *)
Definition create_directories {S} : Py S unit :=
  do _ <- emit (Makedirs "models");
  emit (Makedirs Config.OUTPUT_DIR).

Definition _display_system_info : Py ObjectDetectionSystem unit :=
  do _ <- print (NL +:+ "[SYSTEM INFORMATION]");
  do s <- self;
  do _ <- match get_camera_info s.(camera) with
          | Some camera_info =>
              do _ <- print ("Camera ID: " +:+ pretty camera_info.(info_camera_id));
              do _ <- print ("Resolution: " +:+ pretty camera_info.(info_width)
                             +:+ "x" +:+ pretty camera_info.(info_height));
              do _ <- print ("FPS: " +:+ pretty camera_info.(info_fps));
              print ("Backend: " +:+ camera_info.(info_backend))
          | None => ret tt
          end;
  let model_info := get_model_info s.(detector) in
  do _ <- print (NL +:+ "Model: " +:+ model_info.(mi_model_path));
  do _ <- print ("Classes: " +:+ pretty model_info.(mi_num_classes));
  (* str() of the threshold, 0.5, has one decimal *)
  do _ <- print ("Confidence Threshold: "
                 +:+ format_fixed 1 model_info.(mi_confidence_threshold));
  do _ <- print (NL +:+ "[CONTROLS]");
  do _ <- print "Press 'q' or 'ESC' to quit";
  do _ <- print "Press 's' to save current frame";
  do _ <- print "Press 'r' to toggle recording";
  do _ <- print "Press 'i' to show detection info";
  do _ <- print (str_repeat "=" 60);
  print EmptyString.

(* ObjectDetectionSystem(camera_id=...) *)
Definition ObjectDetectionSystem_init (id : Z) (open : OpenOutcome) (now : Q)
    (first fallback : YoloOutcome) : World → Result ObjectDetectionSystem * World :=
  λ w,
  let '(_, _, w) := (do _ <- print (str_repeat "=" 60);
                     do _ <- print "OBJECT DETECTION SYSTEM - YOLOv8";
                     do _ <- print (str_repeat "=" 60);
                     create_directories) tt w in
  let '(_, cam, w) := CameraHandler_init id open w in
  match ObjectDetector_init None now first fallback w with
  | (Raise e, _, w) => (Raise e, w)
  | (Ok _, det, w) =>
      let '(r, s, w) := _display_system_info
                          {| camera := cam; detector := det;
                             is_running := false; video_writer := None |} w in
      match r with
      | Ok _ => (Ok s, w)
      | Raise e => (Raise e, w)
      end
  end.

Definition _save_frame (frame : nat) (detections : list Detection) (now : datetime)
  : Py ObjectDetectionSystem unit :=
  let timestamp := strftime_stamp now in
  let filename := Config.OUTPUT_DIR +:+ "/detection_" +:+ timestamp +:+ ".jpg" in
  do image <- pixels frame;
  do _ <- emit (Imwrite filename image);
  do _ <- print ("Frame saved: " +:+ filename);
  print ("Detections: " +:+ pretty (length detections) +:+ " objects").

Definition _toggle_recording (frame : nat) (now : datetime)
  : Py ObjectDetectionSystem unit :=
  do s <- self;
  match s.(video_writer) with
  | None =>
      let timestamp := strftime_stamp now in
      let filename := Config.OUTPUT_DIR +:+ "/recording_" +:+ timestamp +:+ ".mp4" in
      let fourcc := "mp4v" in
      let fps := Config.CAMERA_FPS in
      do image <- pixels frame;
      let frame_size := (image.(cols), image.(rows)) in
      let writer := {| w_filename := filename; w_fourcc := fourcc;
                       w_fps := fps; w_frame_size := frame_size |} in
      do _ <- emit (WriterOpen writer);
      do _ <- assign (set_video_writer (Some writer));
      print ("Recording started: " +:+ filename)
  | Some writer =>
      do _ <- emit (WriterRelease writer);
      do _ <- assign (set_video_writer None);
      print "Recording stopped"
  end.

Fixpoint print_detections {S} (i : nat) (detections : list Detection) : Py S unit :=
  match detections with
  | [] => ret tt
  | det :: rest =>
      do _ <- print (pretty i +:+ ". " +:+ det.(class_name) +:+ " - Confidence: "
                     +:+ format_fixed 2 (det.(confidence) * 100)%Q +:+ "%");
      print_detections (Datatypes.S i) rest
  end.

Definition _show_detection_info (detections : list Detection)
  : Py ObjectDetectionSystem unit :=
  do _ <- print (NL +:+ str_repeat "=" 60);
  do _ <- print ("CURRENT DETECTIONS: " +:+ pretty (length detections));
  do _ <- print (str_repeat "=" 60);
  do _ <- match detections with
          | [] => print "No objects detected"
          | _ => print_detections 1 detections
          end;
  print (str_repeat "=" 60 +:+ NL).

Definition cleanup : Py ObjectDetectionSystem unit :=
  do _ <- print (NL +:+ "Cleaning up...");
  do s <- self;
  do _ <- match s.(video_writer) with
          | Some writer => emit (WriterRelease writer)
          | None => ret tt
          end;
  do _ <- on_camera release;
  do _ <- emit DestroyAllWindows;
  do _ <- print "System shutdown complete";
  print (str_repeat "=" 60).

Inductive Flow := Continue | Break.

Section Session.

Variable getTextSize : string → Z → Q → Z → (Z * Z) * Z.

(* The blocks of the body of [while self.is_running], in source order. *)

(* "Detect objects", "Draw FPS if enabled", "Add detection count" *)
Definition annotate (t : Tick) (frame : nat)
  : Py ObjectDetectionSystem (nat * list Detection) :=
  do '(annotated_frame, detections) <-
    on_detector (detect_objects getTextSize frame t.(t_infer));
  do annotated_frame <-
    (if Config.SHOW_FPS
     then on_detector (draw_fps annotated_frame t.(t_clock).1 t.(t_clock).2)
     else ret annotated_frame);
  let detection_text := "Objects: " +:+ pretty (length detections) in
  do _ <- draw annotated_frame
            (PutText detection_text (10, 60) Config.FONT Config.FONT_SCALE
               Config.FPS_COLOR Config.FONT_THICKNESS);
  ret (annotated_frame, detections).

(* "Record if enabled" *)
Definition record (o : WriteOutcome) (annotated_frame : nat)
  : Py ObjectDetectionSystem unit :=
  do s <- self;
  match s.(video_writer) with
  | Some writer =>
      do image <- pixels annotated_frame;
      do _ <- match o with
              | WriteOk => emit (WriterWrite writer image)
              | WriteRaises msg => raise (Exception msg)
              end;
      (* "Show recording indicator" *)
      do image <- pixels annotated_frame;
      draw annotated_frame (Circle (image.(cols) - 30, 30) 10 (0, 0, 255) (-1))
  | None => ret tt
  end.

(* "Display frame" *)
Definition display (annotated_frame : nat) : Py ObjectDetectionSystem unit :=
  do image <- pixels annotated_frame;
  emit (Imshow Config.WINDOW_NAME image).

(* "Handle keyboard input"; [pressed] is what cv2.waitKey(1) returned. *)
Definition handle_key (pressed : Z) (annotated_frame : nat)
    (detections : list Detection) (now : datetime)
  : Py ObjectDetectionSystem Flow :=
  let key := Z.land pressed 255 in
  if (key =? 113) || (key =? 27) then          (* ord('q'), ESC *)
    do _ <- print (NL +:+ "Stopping detection...");
    ret Break
  else if key =? 115 then                      (* ord('s') *)
    do _ <- _save_frame annotated_frame detections now;
    ret Continue
  else if key =? 114 then                      (* ord('r') *)
    do _ <- _toggle_recording annotated_frame now;
    ret Continue
  else if key =? 105 then                      (* ord('i') *)
    do _ <- _show_detection_info detections;
    ret Continue
  else ret Continue.

Definition loop_body (t : Tick) : Py ObjectDetectionSystem Flow :=
  do '(ok, frame) <- on_camera (read_frame t.(t_read));
  match (if ok then frame else None) with
  | None =>
      do _ <- print "Failed to read frame. Attempting reconnection...";
      do again <- on_camera (reconnect t.(t_reopen));
      if negb again then
        do _ <- print "Could not reconnect to camera. Exiting...";
        ret Break
      else ret Continue
  | Some frame =>
      do '(annotated_frame, detections) <- annotate t frame;
      do _ <- record t.(t_write) annotated_frame;
      do _ <- display annotated_frame;
      handle_key t.(t_key) annotated_frame detections t.(t_now)
  end.

(* How far the while loop got on the ticks supplied. *)
Inductive LoopEnd :=
| Exited        (* the loop was left: break, or is_running found False *)
| Waiting.      (* every supplied tick ran and the loop is still going *)

Fixpoint while_running (ticks : list Tick) : Py ObjectDetectionSystem LoopEnd :=
  do s <- self;
  if negb s.(is_running) then ret Exited
  else
    match ticks with
    | [] => ret Waiting
    | t :: rest =>
        do flow <- loop_body t;
        match flow with
        | Break => ret Exited
        | Continue => while_running rest
        end
    end.

(* How far run() got: it returned, or it is still inside its loop. *)
Inductive RunEnd :=
| Returned
| Looping.

Definition run (ticks : list Tick) : Py ObjectDetectionSystem RunEnd :=
  do s <- self;
  if negb (is_available s.(camera)) then
    do _ <- print "ERROR: Camera not available!";
    ret Returned
  else
    do _ <- assign (set_is_running true);
    do _ <- print ("Starting detection... (Press 'q' to quit)" +:+ NL);
    λ s w,
      match while_running ticks s w with
      | (Ok Waiting, s', w') => (Ok Looping, s', w')
      | (Ok Exited, s', w') =>
          (do _ <- cleanup; ret Returned) s' w'
      | (Raise KeyboardInterrupt, s', w') =>
          (do _ <- print (NL +:+ "Interrupted by user");
           do _ <- cleanup; ret Returned) s' w'
      | (Raise (Exception e), s', w') =>
          (do _ <- print (NL +:+ "Error during detection: " +:+ e);
           do _ <- cleanup; ret Returned) s' w'
      end.

Record Args := {
  arg_camera : Z;
  arg_list_cameras : bool
}.

(* What the machine answers during start-up. *)
Record Boot := {
  b_openable : Z → bool;       (* which indices the camera scan can open *)
  b_open : OpenOutcome;        (* opening the selected camera *)
  b_now : Q;                   (* time.time() in ObjectDetector.__init__ *)
  b_yolo : YoloOutcome;        (* YOLO(MODEL_PATH) *)
  b_yolo_fallback : YoloOutcome (* YOLO(MODEL_NAME) *)
}.

(* repr of a list of ints *)
Definition repr_list (l : list Z) : string :=
  "[" +:+ String.concat ", " (pretty <$> l) +:+ "]".

Definition main (args : Args) (b : Boot) (ticks : list Tick)
  : World → Result RunEnd * World :=
  λ w,
  if args.(arg_list_cameras) then
    let '(r, _, w) :=
      (do _ <- print "Scanning for available cameras...";
       do cameras <- list_available_cameras b.(b_openable) 5;
       do _ <- print ("Available cameras: " +:+ repr_list cameras);
       ret Returned) tt w in
    (r, w)
  else
    match ObjectDetectionSystem_init args.(arg_camera) b.(b_open) b.(b_now)
            b.(b_yolo) b.(b_yolo_fallback) w with
    | (Raise e, w) => (Raise e, w)
    | (Ok system, w) =>
        let '(r, _, w) := run ticks system w in
        (r, w)
    end.

(* The status the interpreter exits with once main() is over: 0 when it
   returned, 1 when an exception escaped it; none while it still runs. *)
Definition exit_code (r : Result RunEnd) : option Z :=
  match r with
  | Ok Returned => Some 0
  | Ok Looping => None
  | Raise _ => Some 1
  end.

End Session.

(** ** Drivers: the same method called several times in a row *)

(* calculate_fps() called once per pair of clock readings; the values it
   reported, in order. *)
Fixpoint fps_reports (clock : list (Q * Q)) : Py ObjectDetector (list Q) :=
  match clock with
  | [] => ret []
  | (now1, now2) :: rest =>
      do r <- calculate_fps now1 now2;
      do rs <- fps_reports rest;
      ret (r :: rs)
  end.

(* release() called [n] times. *)
Fixpoint release_times (n : nat) : Py CameraHandler unit :=
  match n with
  | O => ret tt
  | Datatypes.S n' => do _ <- release; release_times n'
  end.

(* Among [n] calls of release() in a row, the number that find the device
   open, and so give its handle back. *)
Fixpoint handle_releases (n : nat) (h : CameraHandler) (w : World) : nat :=
  match n with
  | O => O
  | Datatypes.S n' =>
      ((if device_open h then 1 else 0)
       + handle_releases n' (release h w).1.2 (release h w).2)%nat
  end.

(* Readings of the trace. *)
Definition is_cap_release (e : Event) : bool :=
  match e with CapRelease _ => true | _ => false end.
Definition is_capture_open (e : Event) : bool :=
  match e with VideoCaptureOpen _ => true | _ => false end.
Definition is_frame_output (e : Event) : bool :=
  match e with
  | WriterWrite _ _ | Imshow _ _ | Imwrite _ _ => true
  | _ => false
  end.

Definition count_events (p : Event → bool) (tr : list Event) : nat :=
  length (List.filter p tr).

(** ** Vocabulary of the statements *)

(* [w] with the events [es] appended to its trace. *)
Definition logged (w : World) (es : list Event) : World :=
  {| arrays := w.(arrays); next_id := w.(next_id); trace := w.(trace) ++ es |}.

(* [f] after the drawing calls [ops], in order. *)
Definition paint_all (ops : list DrawOp) (f : Frame) : Frame :=
  {| rows := f.(rows); cols := f.(cols); payload := f.(payload);
     drawn := f.(drawn) ++ ops |}.

(* The three drawing calls of one iteration of _draw_annotations. *)
Definition annotation_ops (getTextSize : string → Z → Q → Z → (Z * Z) * Z)
    (det : Detection) : list DrawOp :=
  let '(x1, y1, x2, y2) := det.(bbox) in
  let label := label_of det in
  let '((label_width, label_height), baseline) :=
    getTextSize label Config.FONT Config.FONT_SCALE Config.FONT_THICKNESS in
  [ Rectangle (x1, y1) (x2, y2) Config.BOX_COLOR Config.BOX_THICKNESS;
    Rectangle (x1, y1 - label_height - baseline - 5) (x1 + label_width, y1)
      Config.TEXT_BG_COLOR (-1);
    PutText label (x1, y1 - baseline - 5) Config.FONT Config.FONT_SCALE
      Config.TEXT_COLOR Config.FONT_THICKNESS ].

(* The overlays that run() adds. *)
Definition fps_overlay (rate : Q) : DrawOp :=
  PutText ("FPS: " +:+ format_fixed 1 rate) (10, 30) Config.FONT Config.FONT_SCALE
    Config.FPS_COLOR Config.FONT_THICKNESS.
Definition count_overlay (n : nat) : DrawOp :=
  PutText ("Objects: " +:+ pretty n) (10, 60) Config.FONT Config.FONT_SCALE
    Config.FPS_COLOR Config.FONT_THICKNESS.
Definition recording_indicator (f : Frame) : DrawOp :=
  Circle (f.(cols) - 30, 30) 10 (0, 0, 255) (-1).

Definition is_indicator (op : DrawOp) : bool :=
  match op with Circle _ _ _ _ => true | _ => false end.

(* The detector after one call of calculate_fps. *)
Definition counted (now1 now2 : Q) (d : ObjectDetector) : ObjectDetector :=
  if Qlt_le_dec 1 (now1 - d.(start_time))%Q then
    {| model_path := d.(model_path); model := d.(model);
       class_names := d.(class_names);
       fps := (inject_Z (d.(frame_count) + 1) / (now1 - d.(start_time)))%Q;
       frame_count := 0; start_time := now2 |}
  else set_frame_count (d.(frame_count) + 1) d.

(* Whether opening the device succeeds, and whether the key read asks to
   quit. *)
Definition reopens (o : OpenOutcome) : bool :=
  match o with OpenReady _ _ _ _ => true | _ => false end.

Definition quit_key (pressed : Z) : bool :=
  (Z.land pressed 255 =? 113) || (Z.land pressed 255 =? 27).

(* Whether one of the two attempts to build the model succeeds. *)
Definition model_loads (b : Boot) : bool :=
  match b.(b_yolo), b.(b_yolo_fallback) with
  | YoloLoads _, _ => true
  | YoloRaises _, YoloLoads _ => true
  | YoloRaises _, YoloRaises _ => false
  end.

(* Events among which the only frame leaving the program is a snapshot
   of [f]. *)
Definition only_snapshots_of (f : Frame) (es : list Event) : Prop :=
  Forall (λ e, match e with
               | WriterWrite _ _ | Imshow _ _ => False
               | Imwrite _ g => g = f
               | _ => True
               end) es.

Definition only_prints (es : list Event) : Prop :=
  Forall (λ e, match e with Print _ => True | _ => False end) es.

(* Pixel coordinates that exist in [f]. *)
Definition in_frame (f : Frame) (pt : Point) : Prop :=
  0 ≤ pt.1 < f.(cols) ∧ 0 ≤ pt.2 < f.(rows).

(* A detection whose box has ordered corners inside [f]. *)
Definition valid_detection (f : Frame) (det : Detection) : Prop :=
  let '(x1, y1, x2, y2) := det.(bbox) in
  x1 ≤ x2 ∧ y1 ≤ y2 ∧ in_frame f (x1, y1) ∧ in_frame f (x2, y2).

(* The shape YYYYMMDD_HHMMSS. *)
Definition is_digit (c : ascii) : bool :=
  (48 <=? nat_of_ascii c)%nat && (nat_of_ascii c <=? 57)%nat.

Fixpoint all_digits (s : string) : bool :=
  match s with
  | EmptyString => true
  | String c rest => is_digit c && all_digits rest
  end.

Definition stamp_shape (s : string) : bool :=
  (String.length s =? 15)%nat
  && all_digits (substring 0 8 s)
  && String.eqb (substring 8 1 s) "_"
  && all_digits (substring 9 6 s).

(* Strings of exactly two, or exactly four, decimal digits. *)
Definition two_digits (s : string) : bool :=
  match s with
  | String a (String b EmptyString) => is_digit a && is_digit b
  | _ => false
  end.

Definition four_digits (s : string) : bool :=
  match s with
  | String a (String b (String c (String d EmptyString))) =>
      is_digit a && is_digit b && is_digit c && is_digit d
  | _ => false
  end.

(* A date and time of the years 1000 to 9999. *)
Definition plausible (d : datetime) : Prop :=
  (1000 ≤ d.(year) < 10000 ∧ d.(month) < 100 ∧ d.(day) < 100
   ∧ d.(hour) < 100 ∧ d.(minute) < 100 ∧ d.(second) < 100)%N.

(** ** Sample inputs *)

Module Sample.

(* A text extent of 11 pixels per character, 13 high, baseline 6. *)
Definition text_size (text : string) (font : Z) (scale : Q) (thickness : Z)
  : (Z * Z) * Z :=
  ((11 * Z.of_nat (String.length text), 13), 6).

(* A camera that accepted 640x480 but negotiated 15 frames per second. *)
Definition capture : VideoCapture :=
  {| device := 0; opened := true; prop_width := 640; prop_height := 480;
     prop_fps := 15; backend_name := "V4L2" |}.

Definition handler : CameraHandler :=
  {| camera_id := 0; cap := Some capture; is_opened := true |}.

Definition coco : gmap Z string := {[ 0 := "person" ]}.

Definition yolo : ObjectDetector :=
  {| model_path := Config.MODEL_PATH; model := Some {| names := coco |};
     class_names := coco; fps := 0; frame_count := 0; start_time := 0 |}.

Definition system : ObjectDetectionSystem :=
  {| camera := handler; detector := yolo; is_running := true;
     video_writer := None |}.

Definition blank : World := {| arrays := ∅; next_id := 0; trace := [] |}.

(* A person found at the top edge of the frame. *)
Definition person_box : RawBox :=
  {| xyxy := (107 # 10, 0%Q, 1002 # 10, 200%Q); conf := 73 # 100; cls := 0 |}.

Definition person : Detection :=
  {| bbox := (10, 0, 100, 200); confidence := 73 # 100; class_id := 0;
     class_name := "person" |}.

Definition image : Frame :=
  {| rows := 480; cols := 640; payload := 7; drawn := [] |}.

Definition moment : datetime :=
  {| year := 2024; month := 3; day := 9; hour := 14; minute := 5; second := 0 |}.

(* A tick on which everything works, with the given answers of the
   model, the writer and the keyboard. *)
Definition tick (infer : InferOutcome) (write : WriteOutcome) (key : Z) : Tick :=
  {| t_read := ReadReturns true (Some (480, 640, 7%nat));
     t_reopen := OpenReady 640 480 15 "V4L2";
     t_infer := infer;
     t_clock := (1 # 2, 1 # 2)%Q;
     t_write := write;
     t_key := key;
     t_now := moment |}.

(* A tick on which the device read fails. *)
Definition lost (reopen : OpenOutcome) : Tick :=
  {| t_read := ReadReturns false None;
     t_reopen := reopen;
     t_infer := InferReturns [];
     t_clock := (1 # 2, 1 # 2)%Q;
     t_write := WriteOk;
     t_key := -1;
     t_now := moment |}.

Definition sees_person : InferOutcome := InferReturns [[person_box]].

Definition boot (open : OpenOutcome) : Boot :=
  {| b_openable := λ i, bool_decide (i = 0 ∨ i = 2);
     b_open := open; b_now := 0;
     b_yolo := YoloLoads coco; b_yolo_fallback := YoloLoads coco |}.

Definition recorder : VideoWriter :=
  {| w_filename := "outputs/recording_20240309_140500.mp4"; w_fourcc := "mp4v";
     w_fps := 30; w_frame_size := (640, 480) |}.

Definition recording : ObjectDetectionSystem :=
  set_video_writer (Some recorder) system.

(* A world that holds one camera image, at identity 0. *)
Definition holding : World :=
  {| arrays := {[ 0%nat := image ]}; next_id := 1; trace := [] |}.

Definition unloaded : ObjectDetector := set_model None yolo.

Definition session : list Tick :=
  [ tick sees_person WriteOk 114;                        (* 'r' *)
    tick sees_person (WriteRaises "disk full") (-1);
    tick sees_person WriteOk (-1) ].

End Sample.

(** ** Vocabulary of the further properties *)

(* What the scan of list_available_cameras does at index [i]: it builds a
   capture, and releases it when it opened. *)
Definition probe_events (openable : Z → bool) (i : Z) : list Event :=
  if openable i then [VideoCaptureOpen i; CapRelease i] else [VideoCaptureOpen i].

(* Whether cap.read() reported success, and whether the handler believes
   it has an open device. *)
Definition device_read_ok (o : ReadOutcome) : bool :=
  match o with ReadReturns true _ => true | _ => false end.

Definition holds_capture (h : CameraHandler) : bool :=
  h.(is_opened) && match h.(cap) with Some _ => true | None => false end.

(* The detection dictionary built from one box, when its class is known. *)
Definition detection_of (class_names : gmap Z string) (box : RawBox)
  : option Detection :=
  let '(x1, y1, x2, y2) := box.(xyxy) in
  name ← class_names !! int_of_float box.(cls);
  Some {| bbox := (int_of_float x1, int_of_float y1,
                   int_of_float x2, int_of_float y2);
          confidence := box.(conf);
          class_id := int_of_float box.(cls);
          class_name := name |}.

(* A raw box with ordered corners on pixel coordinates of [f]. *)
Definition box_inside (f : Frame) (box : RawBox) : Prop :=
  let '(x1, y1, x2, y2) := box.(xyxy) in
  (0 <= x1 ∧ x1 <= x2 ∧ x2 <= inject_Z (f.(cols) - 1)
   ∧ 0 <= y1 ∧ y1 <= y2 ∧ y2 <= inject_Z (f.(rows) - 1))%Q.

(* A method that leaves the reading [f] of its object as it was, whether
   it returns or raises. *)
Definition keeps {S A B} (f : S → B) (m : Py S A) : Prop :=
  ∀ s w, f (m s w).1.2 = f s.

(* More readings of the trace. *)
Definition is_writer_write (e : Event) : bool :=
  match e with WriterWrite _ _ => true | _ => false end.

Definition is_imshow (e : Event) : bool :=
  match e with Imshow _ _ => true | _ => false end.

(* A tick on which a frame is read, the model does not interrupt, the
   writer accepts the frame and the key read neither quits nor toggles. *)
Definition steady (t : Tick) : bool :=
  match t.(t_read) with ReadReturns true (Some _) => true | _ => false end
  && match t.(t_infer) with InferRaises KeyboardInterrupt => false | _ => true end
  && match t.(t_write) with WriteOk => true | WriteRaises _ => false end
  && negb (quit_key t.(t_key))
  && negb (Z.land t.(t_key) 255 =? 114).

(* Events among which frames are written to [wr] only. *)
Definition written_to (wr : VideoWriter) (es : list Event) : Prop :=
  Forall (λ e, match e with WriterWrite w0 _ => w0 = wr | _ => True end) es.

(** * Properties *)

(** ** Bookkeeping *)

Ltac py_unfold :=
  unfold on_camera, on_detector, copy, pixels, print, try_except, on, bind, ret,
    raise, lift, self, assign, emit, alloc, draw, world;
  cbn [arrays next_id trace fst snd].

Ltac py_run :=
  repeat first [ progress cbn [arrays next_id trace fst snd]
               | rewrite lookup_insert_eq
               | rewrite alter_insert_eq ].

Ltac by_logged :=
  unfold logged; cbn [arrays next_id trace]; rewrite <- ?app_assoc; reflexivity.

Lemma logged_nil w : logged w [] = w.
Proof. destruct w; unfold logged; simpl. by rewrite app_nil_r. Qed.

Lemma paint_all_nil f : paint_all [] f = f.
Proof. destruct f; unfold paint_all; simpl. by rewrite app_nil_r. Qed.

Lemma paint_all_app ops1 ops2 f :
  paint_all ops2 (paint_all ops1 f) = paint_all (ops1 ++ ops2) f.
Proof. unfold paint_all; simpl. by rewrite app_assoc. Qed.

Lemma paint_one op f : paint op f = paint_all [op] f.
Proof. done. Qed.

Lemma count_events_app p tr1 tr2 :
  count_events p (tr1 ++ tr2) = (count_events p tr1 + count_events p tr2)%nat.
Proof. unfold count_events. by rewrite List.filter_app, length_app. Qed.

Lemma only_prints_snapshots f es : only_prints es → only_snapshots_of f es.
Proof. intros H. eapply Forall_impl; [exact H|]. by intros []. Qed.

Lemma only_prints_silent es : only_prints es → count_events is_frame_output es = 0%nat.
Proof.
  induction 1 as [|e es He _ IH]; [done|].
  change (e :: es) with ([e] ++ es). rewrite count_events_app, IH.
  by destruct e.
Qed.

Lemma set_camera_same s : set_camera s.(camera) s = s.
Proof. by destruct s. Qed.

(** ** The camera handler *)

Lemma release_held h c w :
  h.(cap) = Some c →
  release h w
  = (Ok tt,
     {| camera_id := h.(camera_id); cap := Some (released c); is_opened := false |},
     logged w [CapRelease c.(device); Print "Camera released"]).
Proof.
  intros Hc. unfold release, bind, self. rewrite Hc.
  unfold print, emit, assign, logged. simpl. by rewrite <- app_assoc.
Qed.

Lemma release_unheld h w : h.(cap) = None → release h w = (Ok tt, h, w).
Proof. intros Hc. unfold release, bind, self. by rewrite Hc. Qed.

(* read_frame never raises and leaves the handler as it was; it neither
   opens a device nor hands a frame to anyone. *)
Lemma read_frame_result o h w :
  ∃ res w', read_frame o h w = (Ok res, h, w')
    ∧ ∃ es, w'.(trace) = w.(trace) ++ es
         ∧ count_events is_capture_open es = 0%nat
         ∧ count_events is_frame_output es = 0%nat.
Proof.
  unfold read_frame. py_unfold.
  destruct (negb (is_opened h) || bool_decide (cap h = None)).
  { eexists _, _. split; [done|]. exists []. by rewrite app_nil_r. }
  destruct o as [msg|ok [[[r c] p]|]]; [| destruct ok | destruct ok];
    (eexists _, _; split; [done|]; cbn [trace];
     first [ by (exists []; rewrite app_nil_r) | by eexists [_] ]).
Qed.

Lemma read_frame_image h w c r cl p :
  h.(is_opened) = true → h.(cap) = Some c →
  read_frame (ReadReturns true (Some (r, cl, p))) h w
  = (Ok (true, Some w.(next_id)), h,
     {| arrays := <[w.(next_id) := {| rows := r; cols := cl; payload := p;
                                      drawn := [] |}]> w.(arrays);
        next_id := S w.(next_id); trace := w.(trace) |}).
Proof.
  intros Ho Hc. unfold read_frame. py_unfold. rewrite Ho, Hc. by cbn.
Qed.

(* reconnect never raises, opens the device exactly once, and leaves the
   camera available exactly when that succeeded. *)
Lemma reconnect_result o h w :
  ∃ h' w', reconnect o h w = (Ok (reopens o), h', w')
    ∧ is_available h' = reopens o
    ∧ w'.(arrays) = w.(arrays) ∧ w'.(next_id) = w.(next_id)
    ∧ ∃ es, w'.(trace) = w.(trace) ++ es
         ∧ count_events is_capture_open es = 1%nat
         ∧ count_events is_frame_output es = 0%nat.
Proof.
  unfold reconnect, release, _initialize_camera. py_unfold.
  destruct (cap h) as [c|]; destruct o;
    (eexists _, _; split; [done|]; split;
     [ unfold is_available; cbn; by rewrite ?andb_false_r |];
     do 2 (split; [done|]); cbn [trace]; rewrite <- ?app_assoc;
     eexists; (split; [done|]); done).
Qed.

(** ** The rate counter *)

Lemma calculate_fps_inside d w now1 now2 :
  (now1 - d.(start_time) <= 1)%Q →
  calculate_fps now1 now2 d w
  = (Ok d.(fps), set_frame_count (d.(frame_count) + 1) d, w).
Proof.
  intros Hin. unfold calculate_fps, bind, self, assign, ret. simpl.
  destruct (Qlt_le_dec 1 (now1 - start_time d)) as [Hlt | Hle]; [|done].
  exfalso. apply (Qlt_not_le _ _ Hlt Hin).
Qed.

Lemma calculate_fps_closing d w now1 now2 :
  (1 < now1 - d.(start_time))%Q →
  calculate_fps now1 now2 d w
  = (Ok (inject_Z (d.(frame_count) + 1) / (now1 - d.(start_time)))%Q,
     {| model_path := d.(model_path); model := d.(model);
        class_names := d.(class_names);
        fps := (inject_Z (d.(frame_count) + 1) / (now1 - d.(start_time)))%Q;
        frame_count := 0; start_time := now2 |},
     w).
Proof.
  intros Hout. unfold calculate_fps, bind, self, assign, ret. simpl.
  destruct (Qlt_le_dec 1 (now1 - start_time d)) as [Hlt | Hle]; [done|].
  exfalso. apply (Qlt_not_le _ _ Hout Hle).
Qed.

Lemma calculate_fps_counted now1 now2 d w :
  calculate_fps now1 now2 d w
  = (Ok (counted now1 now2 d).(fps), counted now1 now2 d, w).
Proof.
  unfold calculate_fps, counted. py_unfold. cbn.
  by destruct (Qlt_le_dec 1 (now1 - start_time d)).
Qed.

(* Calls that all fall inside the current window report the stored rate
   and only count. *)
Lemma fps_reports_inside clock : ∀ d w,
  Forall (λ t, (t.1 - d.(start_time) <= 1)%Q) clock →
  fps_reports clock d w
  = (Ok (replicate (length clock) d.(fps)),
     set_frame_count (d.(frame_count) + Z.of_nat (length clock)) d, w).
Proof.
  induction clock as [|[now1 now2] clock IH]; intros d w Hall.
  - simpl. unfold ret. do 2 f_equal. destruct d; unfold set_frame_count; simpl.
    f_equal. lia.
  - apply Forall_cons in Hall as [Hhd Htl]. simpl in Hhd.
    cbn [fps_reports]. unfold bind at 1.
    rewrite calculate_fps_inside by done.
    unfold bind at 1. rewrite IH by (destruct d; exact Htl).
    unfold ret. destruct d; unfold set_frame_count; simpl.
    do 3 f_equal. lia.
Qed.

Lemma fps_reports_app clock1 : ∀ clock2 d w,
  fps_reports (clock1 ++ clock2) d w
  = match fps_reports clock1 d w with
    | (Ok rs1, d1, w1) =>
        match fps_reports clock2 d1 w1 with
        | (Ok rs2, d2, w2) => (Ok (rs1 ++ rs2), d2, w2)
        | (Raise e, d2, w2) => (Raise e, d2, w2)
        end
    | (Raise e, d1, w1) => (Raise e, d1, w1)
    end.
Proof.
  induction clock1 as [|[now1 now2] clock1 IH]; intros clock2 d w.
  - simpl. unfold ret. by destruct (fps_reports clock2 d w) as [[[rs|e] d2] w2].
  - cbn [app fps_reports]. unfold bind.
    destruct (calculate_fps now1 now2 d w) as [[[r|e] d1] w1]; [|done].
    rewrite IH.
    destruct (fps_reports clock1 d1 w1) as [[[rs1|e] d2] w2]; [|done].
    unfold ret.
    by destruct (fps_reports clock2 d2 w2) as [[[rs2|e] d3] w3].
Qed.

(** ** The detector *)

Lemma collect_raises names boxes e :
  collect names boxes = Raise e → ∃ key, e = Exception key.
Proof.
  revert e. induction boxes as [|box rest IH]; intros e; [done|].
  cbn [collect]. destruct (xyxy box) as [[[x1 y1] x2] y2].
  destruct (names !! int_of_float (cls box)) as [name|].
  - destruct (collect names rest) as [dets|e']; [done|].
    intros [= <-]. by apply IH.
  - intros [= <-]. by eexists.
Qed.

Section DetectorFacts.

Variable getTextSize : string → Z → Q → Z → (Z * Z) * Z.

(* _draw_annotations paints the calls of [annotation_ops] for every
   detection, in order, on the array it is given, and returns that array. *)
Lemma draw_annotations_store {S} detections : ∀ frame f m n tr (s : S),
  _draw_annotations getTextSize frame detections s
    {| arrays := <[frame := f]> m; next_id := n; trace := tr |}
  = (Ok frame, s,
     {| arrays := <[frame := paint_all (flat_map (annotation_ops getTextSize)
                                          detections) f]> m;
        next_id := n; trace := tr |}).
Proof.
  induction detections as [|det rest IH]; intros frame f m n tr s.
  - simpl. by rewrite paint_all_nil.
  - cbn [_draw_annotations flat_map]. unfold annotation_ops at 1.
    destruct (bbox det) as [[[x1 y1] x2] y2].
    destruct (getTextSize _ _ _ _) as [[lw lh] bl].
    py_unfold. rewrite !alter_insert_eq. rewrite IH.
    by rewrite !paint_one, !paint_all_app.
Qed.

Lemma detect_objects_unloaded frame o d w :
  d.(model) = None →
  detect_objects getTextSize frame o d w = (Ok (frame, []), d, w).
Proof. intros Hm. unfold detect_objects. py_unfold. by rewrite Hm. Qed.

Lemma detect_objects_raises frame msg d w :
  d.(model) ≠ None →
  detect_objects getTextSize frame (InferRaises (Exception msg)) d w
  = (Ok (frame, []), d, logged w [Print ("Detection error: " +:+ msg)]).
Proof.
  intros Hm. unfold detect_objects. py_unfold.
  by destruct (model d) as [m|].
Qed.

Lemma detect_objects_unknown_class frame results key d w :
  d.(model) ≠ None →
  collect d.(class_names) (concat results) = Raise (Exception key) →
  detect_objects getTextSize frame (InferReturns results) d w
  = (Ok (frame, []), d, logged w [Print ("Detection error: " +:+ key)]).
Proof.
  intros Hm Hc. unfold detect_objects. py_unfold.
  destruct (model d) as [m|]; [|done]. by rewrite Hc.
Qed.

Lemma detect_objects_returns frame results detections d w f :
  d.(model) ≠ None →
  collect d.(class_names) (concat results) = Ok detections →
  w.(arrays) !! frame = Some f →
  detect_objects getTextSize frame (InferReturns results) d w
  = (Ok (w.(next_id), detections), d,
     {| arrays := <[w.(next_id) := paint_all (flat_map (annotation_ops getTextSize)
                                                detections) f]> w.(arrays);
        next_id := S w.(next_id); trace := w.(trace) |}).
Proof.
  intros Hm Hc Hf. unfold detect_objects. py_unfold.
  destruct (model d) as [m|]; [|done]. py_unfold. rewrite Hc, Hf. py_unfold.
  by rewrite draw_annotations_store.
Qed.

(* Whatever the model does short of a keyboard interrupt, detect_objects
   returns, printing at most a diagnostic, and the array it returns is in
   the store. *)
Lemma detect_objects_store frame o d f m n tr :
  o ≠ InferRaises KeyboardInterrupt →
  ∃ a dets fa m' n' es,
    detect_objects getTextSize frame o d
      {| arrays := <[frame := f]> m; next_id := n; trace := tr |}
    = (Ok (a, dets), d,
       {| arrays := <[a := fa]> m'; next_id := n'; trace := tr ++ es |})
    ∧ only_prints es.
Proof.
  intros Ho.
  destruct (model d) as [mo|] eqn:Hm.
  - destruct o as [[msg|]|results]; [| done |].
    + rewrite detect_objects_raises by congruence.
      eexists _, _, _, _, _, [_]. split; [done|]. by repeat constructor.
    + destruct (collect d.(class_names) (concat results)) as [dets|e] eqn:Hc.
      * rewrite (detect_objects_returns _ _ dets _ _ f)
          by (congruence || done || apply lookup_insert_eq).
        eexists _, _, _, _, _, []. split; [|constructor].
        cbn [arrays next_id trace]. by rewrite app_nil_r.
      * destruct (collect_raises _ _ _ Hc) as [key ->].
        rewrite (detect_objects_unknown_class _ _ key) by (congruence || done).
        eexists _, _, _, _, _, [_]. split; [done|]. by repeat constructor.
  - rewrite detect_objects_unloaded by done.
    eexists _, _, _, _, _, []. split; [|constructor]. by rewrite app_nil_r.
Qed.

End DetectorFacts.

(** ** The blocks of the loop body *)

Section SessionFacts.

Variable getTextSize : string → Z → Q → Z → (Z * Z) * Z.

(* Once detect_objects has returned the array [a], annotate draws the
   rate and the count on that same array. *)
Lemma annotate_from t frame s w a dets d1 fa m n tr :
  detect_objects getTextSize frame t.(t_infer) s.(detector) w
  = (Ok (a, dets), d1, {| arrays := <[a := fa]> m; next_id := n; trace := tr |}) →
  let d2 := counted t.(t_clock).1 t.(t_clock).2 d1 in
  annotate getTextSize t frame s w
  = (Ok (a, dets), set_detector d2 s,
     {| arrays := <[a := paint_all [fps_overlay d2.(fps);
                                    count_overlay (length dets)] fa]> m;
        next_id := n; trace := tr |}).
Proof.
  intros Hdet d2. unfold annotate. unfold bind at 1. unfold on_detector at 1, on at 1.
  rewrite Hdet. cbn [Config.SHOW_FPS]. unfold draw_fps.
  unfold bind at 1. unfold on_detector, on. cbn [detector set_detector].
  unfold bind at 1. rewrite calculate_fps_counted. fold d2.
  py_unfold. rewrite !alter_insert_eq. rewrite !paint_one, paint_all_app.
  reflexivity.
Qed.

Lemma record_idle o a s w :
  s.(video_writer) = None → record o a s w = (Ok tt, s, w).
Proof. intros Hv. unfold record. py_unfold. by rewrite Hv. Qed.

(* The frame is handed to the writer first and marked afterwards. *)
Lemma record_active a s wr fa m n tr :
  s.(video_writer) = Some wr →
  record WriteOk a s {| arrays := <[a := fa]> m; next_id := n; trace := tr |}
  = (Ok tt, s,
     {| arrays := <[a := paint (recording_indicator fa) fa]> m; next_id := n;
        trace := tr ++ [WriterWrite wr fa] |}).
Proof.
  intros Hv. unfold record. py_unfold. rewrite Hv. by py_run.
Qed.

Lemma record_fault msg a s wr fa w :
  s.(video_writer) = Some wr → w.(arrays) !! a = Some fa →
  record (WriteRaises msg) a s w = (Raise (Exception msg), s, w).
Proof.
  intros Hv Ha. unfold record. py_unfold. by rewrite Hv, Ha.
Qed.

Lemma display_shows a s fa w :
  w.(arrays) !! a = Some fa →
  display a s w = (Ok tt, s, logged w [Imshow Config.WINDOW_NAME fa]).
Proof. intros Ha. unfold display. py_unfold. by rewrite Ha. Qed.

Lemma print_detections_prints {S} dets : ∀ i (s : S) w,
  ∃ es, print_detections i dets s w = (Ok tt, s, logged w es) ∧ only_prints es.
Proof.
  induction dets as [|det rest IH]; intros i s w.
  - exists []. split; [|constructor]. cbn [print_detections]. unfold ret.
    by rewrite logged_nil.
  - cbn [print_detections]. unfold bind at 1, print at 1, emit at 1.
    edestruct IH as (es & -> & Hes).
    eexists (Print _ :: es). split; [|by constructor].
    unfold logged; cbn. by rewrite <- app_assoc.
Qed.

(* The key handler never raises when the frame is in the store; the only
   frame it lets out is the snapshot saved on 's'. *)
Lemma handle_key_result pressed a dets now s w fa :
  w.(arrays) !! a = Some fa →
  ∃ s' es,
    handle_key pressed a dets now s w
    = (Ok (if quit_key pressed then Break else Continue), s', logged w es)
    ∧ only_snapshots_of fa es
    ∧ (Z.land pressed 255 = 115 →
       s' = s ∧
       es = [Imwrite (Config.OUTPUT_DIR +:+ "/detection_"
                      +:+ strftime_stamp now +:+ ".jpg") fa;
             Print ("Frame saved: " +:+ Config.OUTPUT_DIR +:+ "/detection_"
                    +:+ strftime_stamp now +:+ ".jpg");
             Print ("Detections: " +:+ pretty (length dets) +:+ " objects")])
    ∧ s'.(camera) = s.(camera) ∧ s'.(detector) = s.(detector)
    ∧ s'.(is_running) = s.(is_running).
Proof.
  intros Ha. unfold handle_key, quit_key.
  destruct ((Z.land pressed 255 =? 113) || (Z.land pressed 255 =? 27)) eqn:Hq.
  { py_unfold. eexists _, [_]. split; [done|]. split; [by repeat constructor|].
    split; [|done]. intros Hk. by rewrite Hk in Hq. }
  destruct (Z.land pressed 255 =? 115) eqn:Hs.
  { unfold _save_frame. py_unfold. eexists _, _.
    split; [rewrite Ha; py_run; by_logged|].
    split; [by repeat constructor|]. done. }
  assert (Hns : Z.land pressed 255 = 115 → False) by (by apply Z.eqb_neq).
  destruct (Z.land pressed 255 =? 114) eqn:Hr.
  { unfold _toggle_recording. py_unfold.
    destruct (video_writer s) as [wr|]; eexists _, _;
      (split; [rewrite ?Ha; py_run; by_logged|]);
      (split; [by repeat constructor|]); (split; [by intros ?|done]). }
  destruct (Z.land pressed 255 =? 105) eqn:Hi.
  { unfold _show_detection_info. py_unfold.
    destruct dets as [|det rest].
    - eexists _, _. split; [by_logged|].
      split; [by repeat constructor|]. split; [by intros ?|done].
    - edestruct (print_detections_prints (det :: rest) 1%nat s) as (es & Heq & Hes).
      rewrite Heq. eexists _, _. split; [by_logged|].
      split; [|split; [by intros ?|done]].
      apply only_prints_snapshots. unfold only_prints in *.
      repeat first [ apply Forall_cons; split; [done|] | apply Forall_app; split ];
        by repeat constructor. }
  py_unfold. exists s, []. split; [by rewrite logged_nil|].
  split; [constructor|]. split; [by intros ?|done].
Qed.

(** ** One pass over a frame that was read *)

Section Frame.

Variables (t : Tick) (s : ObjectDetectionSystem) (w : World).
Variables (c : VideoCapture) (r cl : Z) (p : nat).
Hypothesis Hopen : s.(camera).(is_opened) = true.
Hypothesis Hcap : s.(camera).(cap) = Some c.
Hypothesis Hread : t.(t_read) = ReadReturns true (Some (r, cl, p)).

Let base : Frame := {| rows := r; cols := cl; payload := p; drawn := [] |}.
Let w1 : World :=
  {| arrays := <[w.(next_id) := base]> w.(arrays);
     next_id := S w.(next_id); trace := w.(trace) |}.

Variables (a : nat) (dets : list Detection) (d1 : ObjectDetector).
Variables (fa : Frame) (m : gmap nat Frame) (n : nat) (tr : list Event).
Hypothesis Hdetect :
  detect_objects getTextSize w.(next_id) t.(t_infer) s.(detector) w1
  = (Ok (a, dets), d1, {| arrays := <[a := fa]> m; next_id := n; trace := tr |}).

Let d2 := counted t.(t_clock).1 t.(t_clock).2 d1.
Let annotated := paint_all [fps_overlay d2.(fps); count_overlay (length dets)] fa.

Lemma loop_body_annotated :
  loop_body getTextSize t s w
  = (do _ <- record t.(t_write) a;
     do _ <- display a;
     handle_key t.(t_key) a dets t.(t_now))
      (set_detector d2 s)
      {| arrays := <[a := annotated]> m; next_id := n; trace := tr |}.
Proof.
  unfold loop_body. unfold bind at 1. unfold on_camera, on.
  rewrite Hread, (read_frame_image _ _ c) by done. fold base. fold w1.
  rewrite set_camera_same. unfold bind at 1.
  rewrite (annotate_from t _ s w1 a dets d1 fa m n tr Hdetect).
  reflexivity.
Qed.

Lemma loop_body_write_fault wr msg :
  s.(video_writer) = Some wr → t.(t_write) = WriteRaises msg →
  loop_body getTextSize t s w
  = (Raise (Exception msg), set_detector d2 s,
     {| arrays := <[a := annotated]> m; next_id := n; trace := tr |}).
Proof.
  intros Hv Hw. rewrite loop_body_annotated, Hw. unfold bind at 1.
  by rewrite (record_fault msg a _ wr annotated)
    by (done || apply lookup_insert_eq).
Qed.

Let shown : Frame :=
  match s.(video_writer) with
  | Some _ => paint (recording_indicator annotated) annotated
  | None => annotated
  end.

Lemma loop_body_shown :
  s.(video_writer) = None ∨ t.(t_write) = WriteOk →
  ∃ s' w' after,
    loop_body getTextSize t s w
    = (Ok (if quit_key t.(t_key) then Break else Continue), s', w')
    ∧ w'.(trace)
      = tr ++ match s.(video_writer) with
              | Some wr => [WriterWrite wr annotated]
              | None => []
              end ++ [Imshow Config.WINDOW_NAME shown] ++ after
    ∧ only_snapshots_of shown after
    ∧ (Z.land t.(t_key) 255 = 115 →
       s' = set_detector d2 s ∧
       after = [Imwrite (Config.OUTPUT_DIR +:+ "/detection_"
                         +:+ strftime_stamp t.(t_now) +:+ ".jpg") shown;
                Print ("Frame saved: " +:+ Config.OUTPUT_DIR +:+ "/detection_"
                       +:+ strftime_stamp t.(t_now) +:+ ".jpg");
                Print ("Detections: " +:+ pretty (length dets) +:+ " objects")])
    ∧ s'.(camera) = s.(camera) ∧ s'.(detector) = d2
    ∧ s'.(is_running) = s.(is_running).
Proof.
  intros Hrec. rewrite loop_body_annotated.
  set (s2 := set_detector d2 s).
  assert (∃ w3, record t.(t_write) a s2
                  {| arrays := <[a := annotated]> m; next_id := n; trace := tr |}
                = (Ok tt, s2, w3)
                ∧ w3.(arrays) = <[a := shown]> m
                ∧ w3.(trace) = tr ++ match s.(video_writer) with
                                     | Some wr => [WriterWrite wr annotated]
                                     | None => []
                                     end) as (w3 & Hrecord & Harr & Htr).
  { subst shown. destruct (video_writer s) as [wr|] eqn:Hv.
    - destruct Hrec as [|Hok]; [done|]. rewrite Hok.
      rewrite (record_active a s2 wr) by done. by eexists.
    - rewrite record_idle by done. eexists. split; [done|]. split; [done|].
      cbn. by rewrite app_nil_r. }
  unfold bind at 1. rewrite Hrecord. unfold bind at 1.
  rewrite (display_shows a s2 shown) by (rewrite Harr; apply lookup_insert_eq).
  destruct (handle_key_result t.(t_key) a dets t.(t_now) s2
              (logged w3 [Imshow Config.WINDOW_NAME shown]) shown)
    as (s' & after & Hkey & Hsnap & Hsave & Hc & Hd & Hr).
  { cbn. rewrite Harr. apply lookup_insert_eq. }
  rewrite Hkey.
  exists s', (logged (logged w3 [Imshow Config.WINDOW_NAME shown]) after), after.
  split; [done|]. split; [cbn; rewrite Htr; by rewrite <- !app_assoc|].
  split; [done|]. split; [done|]. by cbn.
Qed.

End Frame.

(** ** The loop and its exits *)

Lemma while_running_nil s w :
  while_running getTextSize [] s w
  = (Ok (if s.(is_running) then Waiting else Exited), s, w).
Proof. cbn [while_running]. py_unfold. by destruct (is_running s). Qed.

Lemma while_running_cons t rest s w :
  while_running getTextSize (t :: rest) s w
  = if s.(is_running) then
      match loop_body getTextSize t s w with
      | (Ok Continue, s', w') => while_running getTextSize rest s' w'
      | (Ok Break, s', w') => (Ok Exited, s', w')
      | (Raise e, s', w') => (Raise e, s', w')
      end
    else (Ok Exited, s, w).
Proof.
  cbn [while_running]. unfold bind at 1, self at 1.
  destruct (is_running s); cbn [negb]; [|done].
  unfold bind. by destruct (loop_body getTextSize t s w) as [[[[|]|e] s1] w1].
Qed.

Lemma while_running_app pre : ∀ post s w,
  while_running getTextSize (pre ++ post) s w
  = match while_running getTextSize pre s w with
    | (Ok Waiting, s', w') => while_running getTextSize post s' w'
    | r => r
    end.
Proof.
  induction pre as [|t pre IH]; intros post s w.
  - cbn [app]. rewrite while_running_nil.
    destruct (is_running s) eqn:Hr; [done|].
    destruct post; [by rewrite while_running_nil, Hr|by rewrite while_running_cons, Hr].
  - cbn [app]. rewrite !while_running_cons.
    destruct (is_running s); [|done].
    destruct (loop_body getTextSize t s w) as [[[[|]|e] s1] w1];
      [by rewrite IH | done | done].
Qed.

Lemma while_running_waiting ticks : ∀ s w s' w',
  while_running getTextSize ticks s w = (Ok Waiting, s', w') →
  s'.(is_running) = true.
Proof.
  induction ticks as [|t ticks IH]; intros s w s' w'.
  - rewrite while_running_nil. destruct (is_running s) eqn:Hr; [|done].
    by intros [= <- <-].
  - rewrite while_running_cons. destruct (is_running s); [|done].
    destruct (loop_body getTextSize t s w) as [[[[|]|e] s1] w1]; [|done|done].
    apply IH.
Qed.
Lemma cleanup_result s w :
  ∃ es,
    cleanup s w
    = (Ok tt,
       set_camera (match s.(camera).(cap) with
                   | Some c => {| camera_id := s.(camera).(camera_id);
                                  cap := Some (released c); is_opened := false |}
                   | None => s.(camera)
                   end) s,
       logged w es)
    ∧ es = [Print (NL +:+ "Cleaning up...")]
           ++ match s.(video_writer) with
              | Some wr => [WriterRelease wr]
              | None => []
              end
           ++ match s.(camera).(cap) with
              | Some c => [CapRelease c.(device); Print "Camera released"]
              | None => []
              end
           ++ [DestroyAllWindows; Print "System shutdown complete";
               Print (str_repeat "=" 60)].
Proof.
  eexists. split; [|reflexivity].
  unfold cleanup. py_unfold.
  destruct (video_writer s) as [wr|]; destruct (cap (camera s)) as [c|] eqn:Hc;
    cbn [arrays next_id trace];
    [ rewrite (release_held _ c) by done | rewrite release_unheld by done
    | rewrite (release_held _ c) by done | rewrite release_unheld by done ];
    by_logged.
Qed.

(* run() always returns or keeps looping: no exception escapes it. *)
Lemma run_result ticks s w :
  ∃ e s' w', run getTextSize ticks s w = (Ok e, s', w').
Proof.
  unfold run. unfold bind at 1, self at 1.
  destruct (negb (is_available (camera s))); [py_unfold; by eexists _, _, _|].
  unfold bind at 1, assign at 1. unfold bind at 1, print at 1, emit at 1.
  destruct (while_running _ _ _ _) as [[[[|]|[msg|]] s1] w1].
  - unfold bind at 1. destruct (cleanup_result s1 w1) as (es & -> & _).
    by eexists _, _, _.
  - by eexists _, _, _.
  - unfold bind at 1, print at 1, emit at 1. unfold bind at 1.
    edestruct cleanup_result as (es & -> & _). by eexists _, _, _.
  - unfold bind at 1, print at 1, emit at 1. unfold bind at 1.
    edestruct cleanup_result as (es & -> & _). by eexists _, _, _.
Qed.

End SessionFacts.

(** ** Start-up and file names *)

Lemma probe_cameras_result {S} openable ids : ∀ (s : S) w,
  ∃ found w', probe_cameras openable ids s w = (Ok found, s, w').
Proof.
  induction ids as [|i ids IH]; intros s w; [by eexists _, _|].
  cbn [probe_cameras]. unfold bind at 1, emit at 1.
  destruct (openable i).
  - unfold bind at 1, emit at 1. unfold bind at 1.
    edestruct IH as (found & w' & ->). by eexists _, _.
  - apply IH.
Qed.

Lemma CameraHandler_init_available id o w :
  is_available (CameraHandler_init id o w).1.2 = reopens o.
Proof.
  unfold CameraHandler_init, _initialize_camera. py_unfold.
  by destruct o.
Qed.

Lemma ObjectDetector_init_loads path now first fallback w :
  match first, fallback with
  | YoloRaises _, YoloRaises _ => False
  | _, _ => True
  end →
  ∃ d w', ObjectDetector_init path now first fallback w = (Ok tt, d, w').
Proof.
  unfold ObjectDetector_init, _load_model, YOLO. py_unfold.
  destruct first as [msg|names]; [destruct fallback as [msg'|names']|];
    intros H; try done; by eexists _, _.
Qed.

Lemma display_system_info_result s w :
  ∃ w', _display_system_info s w = (Ok tt, s, w').
Proof.
  unfold _display_system_info. py_unfold.
  destruct (get_camera_info (camera s)); by eexists.
Qed.

(* Numbers below 100 print, padded, as two digits; the years 1000 to 9999
   as four. *)
Lemma below_listed (n bound : N) :
  (n < bound)%N → In n (N.of_nat <$> seq 0 (N.to_nat bound)).
Proof.
  intros Hn. apply list_elem_of_In, list_elem_of_fmap.
  exists (N.to_nat n). split; [lia|]. apply list_elem_of_In, in_seq. lia.
Qed.

Lemma zero_pad_two (n : N) : (n < 100)%N → two_digits (zero_pad 2 (pretty n)) = true.
Proof.
  intros Hn.
  assert (Hall : forallb (λ k, two_digits (zero_pad 2 (pretty k)))
                   (N.of_nat <$> seq 0 (N.to_nat 100)) = true) by (vm_compute; reflexivity).
  rewrite forallb_forall in Hall. by apply Hall, below_listed.
Qed.

Lemma zero_pad_four (n : N) :
  (1000 ≤ n < 10000)%N → four_digits (zero_pad 4 (pretty n)) = true.
Proof.
  intros Hn.
  assert (Hall : forallb (λ k, (k <? 1000)%N || four_digits (zero_pad 4 (pretty k)))
                   (N.of_nat <$> seq 0 (N.to_nat 10000)) = true) by (vm_compute; reflexivity).
  rewrite forallb_forall in Hall.
  specialize (Hall n (below_listed n 10000 (proj2 Hn))).
  apply orb_true_iff in Hall as [Hlt%N.ltb_lt|]; [lia|done].
Qed.

Lemma strftime_stamp_shape (d : datetime) :
  plausible d → stamp_shape (strftime_stamp d) = true.
Proof.
  intros (Hy & Hm & Hd & Hh & Hmi & Hs). unfold strftime_stamp.
  pose proof (zero_pad_four _ Hy) as Py. pose proof (zero_pad_two _ Hm) as Pm.
  pose proof (zero_pad_two _ Hd) as Pd. pose proof (zero_pad_two _ Hh) as Ph.
  pose proof (zero_pad_two _ Hmi) as Pmi. pose proof (zero_pad_two _ Hs) as Ps.
  destruct (zero_pad 4 (pretty (year d))) as [|y1 [|y2 [|y3 [|y4 [|]]]]]; try done.
  destruct (zero_pad 2 (pretty (month d))) as [|m1 [|m2 [|]]]; try done.
  destruct (zero_pad 2 (pretty (day d))) as [|d1 [|d2 [|]]]; try done.
  destruct (zero_pad 2 (pretty (hour d))) as [|h1 [|h2 [|]]]; try done.
  destruct (zero_pad 2 (pretty (minute d))) as [|n1 [|n2 [|]]]; try done.
  destruct (zero_pad 2 (pretty (second d))) as [|s1 [|s2 [|]]]; try done.
  cbn [two_digits four_digits] in *.
  repeat match goal with H : _ && _ = true |- _ => apply andb_true_iff in H as [? ?] end.
  unfold stamp_shape. cbv -[is_digit].
  repeat match goal with H : is_digit _ = true |- _ => rewrite H; clear H end.
  reflexivity.
Qed.

Section StartupFacts.

Variable getTextSize : string → Z → Q → Z → (Z * Z) * Z.

Lemma init_result id b w :
  model_loads b = true →
  ∃ system w',
    ObjectDetectionSystem_init id b.(b_open) b.(b_now) b.(b_yolo)
      b.(b_yolo_fallback) w = (Ok system, w')
    ∧ is_available system.(camera) = reopens b.(b_open).
Proof.
  intros Hload. unfold ObjectDetectionSystem_init.
  unfold create_directories. py_unfold.
  match goal with |- context [CameraHandler_init id ?o ?w0] =>
    pose proof (CameraHandler_init_available id o w0) as Hav;
    destruct (CameraHandler_init id o w0) as [[ok cam] w1] end.
  cbn [fst snd] in Hav.
  edestruct (ObjectDetector_init_loads None b.(b_now) b.(b_yolo) b.(b_yolo_fallback) w1)
    as (d & w2 & ->).
  { unfold model_loads in Hload. by destruct (b_yolo b), (b_yolo_fallback b). }
  edestruct display_system_info_result as (w3 & ->).
  by eexists _, _.
Qed.

Lemma run_unavailable ticks s w :
  is_available s.(camera) = false →
  run getTextSize ticks s w
  = (Ok Returned, s, logged w [Print "ERROR: Camera not available!"]).
Proof.
  intros Hav. unfold run. unfold bind at 1, self at 1. by rewrite Hav.
Qed.

End StartupFacts.

(** ** Pixels and device handles *)


Lemma release_closes h w : device_open (release h w).1.2 = false.
Proof.
  unfold device_open. destruct (cap h) as [c|] eqn:Hc.
  - by rewrite (release_held h c).
  - rewrite release_unheld by done. cbn. by rewrite Hc.
Qed.

Lemma handle_releases_closed n : ∀ h w,
  device_open h = false → handle_releases n h w = 0%nat.
Proof.
  induction n as [|n IH]; intros h w Hclosed; [done|].
  cbn [handle_releases]. rewrite Hclosed, IH; [done|apply release_closes].
Qed.

(* release() on a handler that holds no capture object, or a closed one
   that it has marked not opened, changes nothing but the log. *)
Lemma release_times_settled k : ∀ (h : CameraHandler) (w : World),
  h.(cap) = None
  ∨ (∃ c, h.(cap) = Some c ∧ c.(opened) = false ∧ h.(is_opened) = false) →
  ∃ w', release_times k h w = (Ok tt, h, w')
        ∧ w'.(arrays) = w.(arrays) ∧ w'.(next_id) = w.(next_id).
Proof.
  induction k as [|k IH]; intros h w Hst; [by eexists|].
  cbn [release_times]. unfold bind.
  destruct Hst as [Hn|(c & Hc & Ho & Hi)].
  - rewrite release_unheld by done. apply IH. by left.
  - rewrite (release_held h c) by done.
    assert (E : {| camera_id := camera_id h; cap := Some (released c);
                   is_opened := false |} = h).
    { destruct h as [i cp o], c; cbn in *. by subst. }
    rewrite E.
    destruct (IH h (logged w [CapRelease (device c); Print "Camera released"]))
      as (w' & -> & Ha & Hn); [right; by exists c|].
    by exists w'.
Qed.

(** * The claims *)

(** C8. [calculate_fps] counts every call.  While the time since the
    window start does not exceed one second it reports the rate it has
    stored, unchanged; the first call made later than that computes the
    rate as the number of calls counted divided by the elapsed time,
    stores and reports it, and resets the counter to zero and the window
    start to the new clock reading.  So over the calls of one window the
    reported value changes at most once, at the call that closes it, however
    many calls there are. *)
Theorem calculate_fps_once_per_window
    (d : ObjectDetector) (w : World) (inside : list (Q * Q)) (now1 now2 : Q) :
  Forall (λ t, (t.1 - d.(start_time) <= 1)%Q) inside →
  (1 < now1 - d.(start_time))%Q →
  let counted_calls := d.(frame_count) + Z.of_nat (length inside) + 1 in
  let rate := (inject_Z counted_calls / (now1 - d.(start_time)))%Q in
  fps_reports (inside ++ [(now1, now2)]) d w
  = (Ok (replicate (length inside) d.(fps) ++ [rate]),
     {| model_path := d.(model_path); model := d.(model);
        class_names := d.(class_names);
        fps := rate; frame_count := 0; start_time := now2 |},
     w).
Proof.
  intros Hin Hout counted_calls rate.
  rewrite fps_reports_app, fps_reports_inside by done.
  cbn [fps_reports]. unfold bind, ret.
  rewrite calculate_fps_closing by (destruct d; exact Hout).
  destruct d; reflexivity.
Qed.

(** C6. [release] is idempotent.  Any number of calls in a row return
    without raising, and leave the handler in the state the first call
    left it in: not opened, not available, its capture object (kept in
    self.cap) with the device closed.  The store of arrays is untouched.
    The device handle is given back exactly once: of the calls, only the
    first can find the device open, and it does when the handler held an
    open capture; every later call, and every call on a handler without an
    open device, finds it closed and gives nothing back. *)
Theorem release_is_idempotent (h : CameraHandler) (w : World) (n : nat) :
  ∃ w',
    release_times (S n) h w = (Ok tt, (release h w).1.2, w')
    ∧ w'.(arrays) = w.(arrays) ∧ w'.(next_id) = w.(next_id)
    ∧ (release h w).1.2
      = match h.(cap) with
        | Some c => {| camera_id := h.(camera_id); cap := Some (released c);
                       is_opened := false |}
        | None => h
        end
    ∧ device_open (release h w).1.2 = false
    ∧ is_available (release h w).1.2 = false
    ∧ handle_releases (S n) h w = (if device_open h then 1 else 0)%nat.
Proof.
  cbn [release_times handle_releases]. unfold bind at 1.
  rewrite (handle_releases_closed n) by apply release_closes.
  destruct (cap h) as [c|] eqn:Hc.
  - rewrite (release_held h c) by done. cbn [fst snd].
    destruct (release_times_settled n
                {| camera_id := camera_id h; cap := Some (released c);
                   is_opened := false |}
                (logged w [CapRelease (device c); Print "Camera released"]))
      as (w' & -> & Ha & Hn); [right; by eexists|].
    exists w'. by repeat split.
  - rewrite release_unheld by done. cbn [fst snd].
    destruct (release_times_settled n h w) as (w' & -> & Ha & Hn); [by left|].
    exists w'. repeat split; try done.
    + unfold device_open. by rewrite Hc.
    + unfold is_available. rewrite Hc. by rewrite andb_false_r.
Qed.

Section Claims.

Variable getTextSize : string → Z → Q → Z → (Z * Z) * Z.

(** C7. When the read of a tick fails (read_frame reports no success or
    no frame), the loop body makes exactly one reconnect attempt, opening
    the device once, and passes no frame on to the writer, the window or a
    file.  If the attempt succeeds the camera is available again, the body
    ends with [continue] and the loop goes on with the next tick; if it
    fails the body ends with [break] and the loop is left, whatever ticks
    would have followed. *)
Theorem failed_read_reconnects_once
    (t : Tick) (s : ObjectDetectionSystem) (w : World)
    (ok : bool) (frame : option nat) (h1 : CameraHandler) (w1 : World) :
  read_frame t.(t_read) s.(camera) w = (Ok (ok, frame), h1, w1) →
  ok = false ∨ frame = None →
  ∃ s' w',
    loop_body getTextSize t s w
    = (Ok (if reopens t.(t_reopen) then Continue else Break), s', w')
    ∧ count_events is_capture_open w'.(trace)
      = (count_events is_capture_open w.(trace) + 1)%nat
    ∧ count_events is_frame_output w'.(trace)
      = count_events is_frame_output w.(trace)
    ∧ is_available s'.(camera) = reopens t.(t_reopen)
    ∧ s'.(detector) = s.(detector)
    ∧ s'.(video_writer) = s.(video_writer)
    ∧ s'.(is_running) = s.(is_running)
    ∧ ∀ rest, s.(is_running) = true →
        while_running getTextSize (t :: rest) s w
        = if reopens t.(t_reopen)
          then while_running getTextSize rest s' w'
          else (Ok Exited, s', w').
Proof.
  intros Hread Hfail.
  destruct (read_frame_result t.(t_read) s.(camera) w)
    as (res & w1' & Hr & es1 & Htr1 & Ho1 & Hf1).
  rewrite Hread in Hr. injection Hr as Hres Hh Hw. subst res h1 w1'.
  destruct (reconnect_result t.(t_reopen) s.(camera)
              (logged w1 [Print "Failed to read frame. Attempting reconnection..."]))
    as (h2 & w2 & Hrc & Hav & _ & _ & es2 & Htr2 & Ho2 & Hf2).
  assert (Hnone : (if ok then frame else None) = None).
  { destruct Hfail as [-> | ->]; [done | by destruct ok]. }
  assert (Hbody : ∃ s' w',
    loop_body getTextSize t s w
    = (Ok (if reopens t.(t_reopen) then Continue else Break), s', w')
    ∧ (∃ es, w'.(trace) = w2.(trace) ++ es
             ∧ count_events is_capture_open es = 0%nat
             ∧ count_events is_frame_output es = 0%nat)
    ∧ s'.(camera) = h2 ∧ s'.(detector) = s.(detector)
    ∧ s'.(video_writer) = s.(video_writer)
    ∧ s'.(is_running) = s.(is_running)).
  { unfold loop_body. unfold bind at 1. unfold on_camera at 1, on at 1.
    rewrite Hread. rewrite Hnone.
    unfold bind at 1. unfold print at 1, emit at 1.
    unfold bind at 1. unfold on_camera, on.
    change {| arrays := arrays w1; next_id := next_id w1;
              trace := trace w1
                       ++ [Print "Failed to read frame. Attempting reconnection..."] |}
      with (logged w1 [Print "Failed to read frame. Attempting reconnection..."]).
    cbn [camera set_camera]. rewrite Hrc.
    destruct (reopens (t_reopen t)); py_unfold; cbn [negb].
    - eexists _, _. split; [done|]. split; [|done].
      exists []. by rewrite app_nil_r.
    - eexists _, _. split; [done|]. split; [|done].
      by eexists [_]. }
  destruct Hbody
    as (s' & w' & Hbody & (es3 & Htr3 & Ho3 & Hf3) & Hcam & Hdet & Hvw & Hrun).
  exists s', w'. split; [exact Hbody|].
  rewrite Htr3, Htr2. cbn [logged trace]. rewrite Htr1.
  rewrite !count_events_app, Ho1, Ho2, Ho3, Hf1, Hf2, Hf3.
  split; [unfold count_events; simpl; lia|].
  split; [unfold count_events; simpl; lia|].
  split; [by rewrite Hcam|].
  do 3 (split; [done|]).
  intros rest Hgo. rewrite while_running_cons, Hgo, Hbody.
  by destruct (reopens (t_reopen t)).
Qed.

(** C10. With no model loaded, [detect_objects] returns, for every frame
    and whatever the backend would have answered, the very array it was
    given and an empty detection list; it raises nothing, allocates
    nothing and draws nothing.  The caller holds an alias: what is drawn
    next through the returned identity lands on the caller's own frame. *)
Theorem detect_objects_without_model
    (frame : nat) (o : InferOutcome) (d : ObjectDetector) (w : World) :
  d.(model) = None →
  detect_objects getTextSize frame o d w = (Ok (frame, []), d, w)
  ∧ ∀ (op : DrawOp) (f : Frame),
      w.(arrays) !! frame = Some f →
      match detect_objects getTextSize frame o d w with
      | (Ok (returned, _), d', w') =>
          (draw returned op d' w').2.(arrays) !! frame = Some (paint op f)
      | (Raise _, _, _) => False
      end.
Proof.
  intros Hm. rewrite detect_objects_unloaded by done.
  split; [done|]. intros op f Hf.
  unfold draw. cbn [snd arrays]. by rewrite lookup_alter_eq, Hf.
Qed.

(** C9. When the detection backend raises an exception for a frame,
    [detect_objects] catches it, prints "Detection error: ..." and returns
    the array it was given, untouched, with an empty detection list.  The
    tick then shows that plain frame with the rate and "Objects: 0" on it
    (and the recording mark, when recording), nothing raises, and unless a
    quit key is read the loop goes on with the next tick. *)
Theorem detection_error_degrades
    (t : Tick) (s : ObjectDetectionSystem) (w : World)
    (c : VideoCapture) (r cl : Z) (p : nat) (msg : string) :
  s.(camera).(is_opened) = true → s.(camera).(cap) = Some c →
  t.(t_read) = ReadReturns true (Some (r, cl, p)) →
  s.(detector).(model) ≠ None →
  t.(t_infer) = InferRaises (Exception msg) →
  s.(video_writer) = None ∨ t.(t_write) = WriteOk →
  (∀ frame d0 w0,
     d0.(model) ≠ None →
     detect_objects getTextSize frame (InferRaises (Exception msg)) d0 w0
     = (Ok (frame, []), d0, logged w0 [Print ("Detection error: " +:+ msg)]))
  ∧ ∃ s' w' after,
      let base := {| rows := r; cols := cl; payload := p; drawn := [] |} in
      let rate := (counted t.(t_clock).1 t.(t_clock).2 s.(detector)).(fps) in
      let plain := paint_all [fps_overlay rate; count_overlay 0] base in
      let shown := match s.(video_writer) with
                   | Some _ => paint (recording_indicator plain) plain
                   | None => plain
                   end in
      loop_body getTextSize t s w
      = (Ok (if quit_key t.(t_key) then Break else Continue), s', w')
      ∧ w'.(trace)
        = w.(trace) ++ [Print ("Detection error: " +:+ msg)]
          ++ match s.(video_writer) with
             | Some wr => [WriterWrite wr plain]
             | None => []
             end
          ++ [Imshow Config.WINDOW_NAME shown] ++ after
      ∧ only_snapshots_of shown after
      ∧ ∀ rest, s.(is_running) = true → quit_key t.(t_key) = false →
          while_running getTextSize (t :: rest) s w
          = while_running getTextSize rest s' w'.
Proof.
  intros Hopen Hcap Hread Hmodel Hinfer Hrec.
  split; [intros; by apply detect_objects_raises|].
  pose (base := {| rows := r; cols := cl; payload := p; drawn := [] |}).
  edestruct (loop_body_shown getTextSize t s w c r cl p Hopen Hcap Hread
               w.(next_id) [] s.(detector) base w.(arrays) (S w.(next_id))
               (w.(trace) ++ [Print ("Detection error: " +:+ msg)]))
    as (s' & w' & after & Hbody & Htr & Hsnap & _ & _ & _ & _).
  { rewrite Hinfer. by rewrite detect_objects_raises. }
  { exact Hrec. }
  exists s', w', after. cbn zeta.
  split; [exact Hbody|]. split; [rewrite Htr; by rewrite <- app_assoc|].
  split; [exact Hsnap|].
  intros rest Hgo Hq. by rewrite while_running_cons, Hgo, Hbody, Hq.
Qed.

(** C5, as the code has it.  On a tick whose frame was read and
    annotated, the frame handed to the video writer carries every box, label
    background and label, the rate and the object count, but not the
    recording indicator: the code writes the frame first and draws the
    indicator afterwards.  The frame shown in the window, and the snapshot
    the save key writes, are taken after that and carry all of these
    overlays, the indicator included whenever a writer is open. *)
Theorem recorded_before_indicator
    (t : Tick) (s : ObjectDetectionSystem) (w : World)
    (c : VideoCapture) (r cl : Z) (p : nat)
    (results : list (list RawBox)) (dets : list Detection) :
  s.(camera).(is_opened) = true → s.(camera).(cap) = Some c →
  t.(t_read) = ReadReturns true (Some (r, cl, p)) →
  s.(detector).(model) ≠ None →
  t.(t_infer) = InferReturns results →
  collect s.(detector).(class_names) (concat results) = Ok dets →
  s.(video_writer) = None ∨ t.(t_write) = WriteOk →
  ∃ s' w' after,
    let base := {| rows := r; cols := cl; payload := p; drawn := [] |} in
    let rate := (counted t.(t_clock).1 t.(t_clock).2 s.(detector)).(fps) in
    let annotated :=
      paint_all (flat_map (annotation_ops getTextSize) dets
                 ++ [fps_overlay rate; count_overlay (length dets)]) base in
    let shown := match s.(video_writer) with
                 | Some _ => paint (recording_indicator annotated) annotated
                 | None => annotated
                 end in
    loop_body getTextSize t s w
    = (Ok (if quit_key t.(t_key) then Break else Continue), s', w')
    ∧ w'.(trace)
      = w.(trace)
        ++ match s.(video_writer) with
           | Some wr => [WriterWrite wr annotated]
           | None => []
           end
        ++ [Imshow Config.WINDOW_NAME shown] ++ after
    ∧ only_snapshots_of shown after
    ∧ (Z.land t.(t_key) 255 = 115 →
       after = [Imwrite (Config.OUTPUT_DIR +:+ "/detection_"
                         +:+ strftime_stamp t.(t_now) +:+ ".jpg") shown;
                Print ("Frame saved: " +:+ Config.OUTPUT_DIR +:+ "/detection_"
                       +:+ strftime_stamp t.(t_now) +:+ ".jpg");
                Print ("Detections: " +:+ pretty (length dets) +:+ " objects")])
    ∧ forallb (λ op, negb (is_indicator op)) annotated.(drawn) = true.
Proof.
  intros Hopen Hcap Hread Hmodel Hinfer Hcollect Hrec.
  pose (base := {| rows := r; cols := cl; payload := p; drawn := [] |}).
  edestruct (loop_body_shown getTextSize t s w c r cl p Hopen Hcap Hread
               (S w.(next_id)) dets s.(detector)
               (paint_all (flat_map (annotation_ops getTextSize) dets) base)
               (<[w.(next_id) := base]> w.(arrays)) (S (S w.(next_id)))
               w.(trace))
    as (s' & w' & after & Hbody & Htr & Hsnap & Hsave & _ & _ & _).
  { rewrite Hinfer.
    by rewrite (detect_objects_returns _ _ _ dets _ _ base)
      by (done || apply lookup_insert_eq). }
  { exact Hrec. }
  rewrite paint_all_app in Htr, Hsnap, Hsave.
  exists s', w', after. cbn zeta.
  split; [exact Hbody|]. split; [exact Htr|]. split; [exact Hsnap|].
  split; [intros Hk; by destruct (Hsave Hk)|].
  cbn [paint_all drawn base app]. rewrite forallb_app. apply andb_true_intro.
  split; [|done].
  apply forallb_forall. intros op [det [_ Hop]]%in_flat_map.
  unfold annotation_ops in Hop. destruct (bbox det) as [[[x1 y1] x2] y2].
  destruct (getTextSize _ _ _ _) as [[lw lh] bl].
  by destruct Hop as [<-|[<-|[<-|[]]]].
Qed.
(** C1, as the code has it.  When video_writer.write raises during a
    tick of an active recording, that tick shows nothing; the exception
    leaves the loop and is caught by the handler around it, which prints
    "Error during detection: ..."; the clean-up then releases the writer and
    the camera and closes the windows, and run() returns without touching
    the ticks that would have followed.  The writer attribute itself is not
    reset. *)
Theorem write_fault_ends_session
    (pre rest : list Tick) (t : Tick) (s0 s : ObjectDetectionSystem)
    (w0 w : World) (c : VideoCapture) (r cl : Z) (p : nat)
    (wr : VideoWriter) (msg : string) :
  is_available s0.(camera) = true →
  while_running getTextSize pre (set_is_running true s0)
    (logged w0 [Print ("Starting detection... (Press 'q' to quit)" +:+ NL)])
  = (Ok Waiting, s, w) →
  s.(camera).(is_opened) = true → s.(camera).(cap) = Some c →
  t.(t_read) = ReadReturns true (Some (r, cl, p)) →
  t.(t_infer) ≠ InferRaises KeyboardInterrupt →
  s.(video_writer) = Some wr →
  t.(t_write) = WriteRaises msg →
  ∃ s' w' diagnostics,
    run getTextSize (pre ++ t :: rest) s0 w0 = (Ok Returned, s', w')
    ∧ w'.(trace)
      = w.(trace) ++ diagnostics
        ++ [Print (NL +:+ "Error during detection: " +:+ msg);
            Print (NL +:+ "Cleaning up...");
            WriterRelease wr;
            CapRelease c.(device); Print "Camera released";
            DestroyAllWindows;
            Print "System shutdown complete"; Print (str_repeat "=" 60)]
    ∧ only_prints diagnostics
    ∧ s'.(video_writer) = Some wr
    ∧ is_available s'.(camera) = false.
Proof.
  intros Havail Hpre Hopen Hcap Hread Hinfer Hvw Hwrite.
  pose (base := {| rows := r; cols := cl; payload := p; drawn := [] |}).
  destruct (detect_objects_store getTextSize w.(next_id) t.(t_infer) s.(detector)
              base w.(arrays) (S w.(next_id)) w.(trace) Hinfer)
    as (a & dets & fa & m & n & es & Hdetect & Hes).
  pose proof (loop_body_write_fault getTextSize t s w c r cl p Hopen Hcap Hread
                a dets s.(detector) fa m n (w.(trace) ++ es) Hdetect wr msg
                Hvw Hwrite) as Hbody.
  pose proof (while_running_waiting _ _ _ _ _ _ Hpre) as Hgo.
  unfold run. unfold bind at 1, self at 1. rewrite Havail. cbn [negb].
  unfold bind at 1, assign at 1. unfold bind at 1, print at 1, emit at 1.
  change {| arrays := arrays w0; next_id := next_id w0;
            trace := trace w0
                     ++ [Print ("Starting detection... (Press 'q' to quit)" +:+ NL)] |}
    with (logged w0 [Print ("Starting detection... (Press 'q' to quit)" +:+ NL)]).
  rewrite while_running_app, Hpre, while_running_cons, Hgo, Hbody.
  unfold bind at 1, print at 1, emit at 1. unfold bind at 1.
  edestruct cleanup_result as (ces & -> & Hces).
  cbn [set_detector video_writer camera] in Hces. rewrite Hvw, Hcap in Hces.
  eexists _, _, es. split; [reflexivity|].
  split; [subst ces; cbn [logged trace]; by rewrite <- !app_assoc|].
  split; [exact Hes|]. split; [exact Hvw|].
  cbn [set_camera set_detector camera]. rewrite Hcap.
  unfold is_available. by cbn.
Qed.
(** C2, as the code has it.  main() never chooses an exit status: the
    process ends with status 0 whenever main() returns.  That is so after
    [--list-cameras]; and, once the model has loaded, whenever run() ends,
    be it after a quit key, after an error caught inside the loop, or at
    once because the camera is unavailable at start-up, in which case run()
    prints "ERROR: Camera not available!" and returns. *)
Theorem main_exit_status (args : Args) (b : Boot) (ticks : list Tick) (w : World) :
  (args.(arg_list_cameras) = true →
   exit_code (main getTextSize args b ticks w).1 = Some 0)
  ∧ (args.(arg_list_cameras) = false → model_loads b = true →
     (reopens b.(b_open) = false →
      exit_code (main getTextSize args b ticks w).1 = Some 0
      ∧ ∃ tr, (main getTextSize args b ticks w).2.(trace)
              = tr ++ [Print "ERROR: Camera not available!"])
     ∧ (exit_code (main getTextSize args b ticks w).1 = Some 0
        ∨ exit_code (main getTextSize args b ticks w).1 = None)).
Proof.
  split.
  - intros Hlist. unfold main. rewrite Hlist.
    unfold bind at 1, print at 1, emit at 1. unfold bind at 1.
    unfold list_available_cameras.
    edestruct (probe_cameras_result (S:=unit)) as (found & w' & ->).
    by py_unfold.
  - intros Hlist Hload. unfold main. rewrite Hlist.
    destruct (init_result args.(arg_camera) b w Hload) as (system & w1 & -> & Hav).
    split.
    + intros Hclosed. rewrite Hclosed in Hav.
      rewrite run_unavailable by done. split; [done|]. by eexists.
    + destruct (run_result getTextSize ticks system w1) as (e & s' & w' & ->).
      destruct e; [by left | by right].
Qed.
(** C4, as the code has it.  Toggling recording on opens a writer named
    <OUTPUT_DIR>/recording_<stamp>.mp4, where the stamp of a plausible date
    has the shape YYYYMMDD_HHMMSS, with codec mp4v, sized (width, height) of
    the annotated frame, at the configured [Config.CAMERA_FPS], which is 30:
    the rate the camera negotiated plays no part. *)
Theorem recording_uses_configured_rate
    (frame : nat) (now : datetime) (s : ObjectDetectionSystem) (w : World)
    (image : Frame) :
  s.(video_writer) = None →
  w.(arrays) !! frame = Some image →
  let filename :=
    Config.OUTPUT_DIR +:+ "/recording_" +:+ strftime_stamp now +:+ ".mp4" in
  let writer := {| w_filename := filename; w_fourcc := "mp4v";
                   w_fps := Config.CAMERA_FPS;
                   w_frame_size := (image.(cols), image.(rows)) |} in
  _toggle_recording frame now s w
  = (Ok tt, set_video_writer (Some writer) s,
     logged w [WriterOpen writer; Print ("Recording started: " +:+ filename)])
  ∧ writer.(w_fps) = 30
  ∧ (plausible now → stamp_shape (strftime_stamp now) = true).
Proof.
  intros Hidle Himage filename writer.
  split; [|split; [done | apply strftime_stamp_shape]].
  unfold _toggle_recording. py_unfold. rewrite Hidle, Himage. by_logged.
Qed.

End Claims.

(** * The claims on sample inputs *)

Lemma calculate_fps_once_per_window_witness :
  fps_reports ([(1 # 4, 1 # 4); (1 # 2, 1 # 2); (1, 1)]%Q ++ [(5 # 4, 5 # 4)%Q])
    Sample.yolo Sample.blank
  = (Ok (replicate 3 0%Q ++ [(inject_Z 4 / ((5 # 4) - 0))%Q]),
     {| model_path := Config.MODEL_PATH; model := Some {| names := Sample.coco |};
        class_names := Sample.coco;
        fps := (inject_Z 4 / ((5 # 4) - 0))%Q; frame_count := 0;
        start_time := 5 # 4 |},
     Sample.blank).
Proof.
  apply (calculate_fps_once_per_window Sample.yolo Sample.blank
           [(1 # 4, 1 # 4); (1 # 2, 1 # 2); (1, 1)]%Q (5 # 4) (5 # 4)).
  - repeat constructor; vm_compute; discriminate.
  - vm_compute. reflexivity.
Defined.

Lemma failed_read_reconnects_once_witness :
  ∃ s' w',
    loop_body Sample.text_size (Sample.lost OpenClosed) Sample.system Sample.blank
    = (Ok Break, s', w')
    ∧ count_events is_capture_open w'.(trace) = 1%nat
    ∧ count_events is_frame_output w'.(trace) = 0%nat
    ∧ is_available s'.(camera) = false
    ∧ while_running Sample.text_size (Sample.lost OpenClosed :: Sample.session)
        Sample.system Sample.blank
      = (Ok Exited, s', w').
Proof.
  destruct (failed_read_reconnects_once Sample.text_size (Sample.lost OpenClosed)
              Sample.system Sample.blank false None Sample.handler
              (logged Sample.blank [Print "Failed to read frame from camera"]))
    as (s' & w' & Hbody & Hopens & Hout & Hav & _ & _ & _ & Hloop).
  - reflexivity.
  - by left.
  - exists s', w'. repeat split; try done. by apply Hloop.
Defined.

Lemma detect_objects_without_model_witness :
  detect_objects Sample.text_size 0 Sample.sees_person Sample.unloaded Sample.holding
  = (Ok (0%nat, []), Sample.unloaded, Sample.holding).
Proof.
  apply (detect_objects_without_model Sample.text_size 0 Sample.sees_person
           Sample.unloaded Sample.holding).
  reflexivity.
Defined.

Lemma detection_error_degrades_witness :
  ∃ s' w',
    loop_body Sample.text_size
      (Sample.tick (InferRaises (Exception "CUDA out of memory")) WriteOk (-1))
      Sample.system Sample.blank
    = (Ok Continue, s', w')
    ∧ ∃ after,
        w'.(trace)
        = [Print "Detection error: CUDA out of memory";
           Imshow Config.WINDOW_NAME
             (paint_all [fps_overlay 0; count_overlay 0] Sample.image)] ++ after.
Proof.
  destruct (detection_error_degrades Sample.text_size
              (Sample.tick (InferRaises (Exception "CUDA out of memory")) WriteOk (-1))
              Sample.system Sample.blank Sample.capture 480 640 7
              "CUDA out of memory")
    as (_ & s' & w' & after & Hbody & Htr & _); try reflexivity.
  - discriminate.
  - by left.
  - exists s', w'. split; [exact Hbody|]. exists after. exact Htr.
Defined.

Lemma recorded_before_indicator_witness :
  ∃ s' w' recorded,
    loop_body Sample.text_size (Sample.tick Sample.sees_person WriteOk 115)
      Sample.recording Sample.blank
    = (Ok Continue, s', w')
    ∧ w'.(trace)
      = [WriterWrite Sample.recorder recorded;
         Imshow Config.WINDOW_NAME (paint (recording_indicator recorded) recorded);
         Imwrite "outputs/detection_20240309_140500.jpg"
           (paint (recording_indicator recorded) recorded);
         Print "Frame saved: outputs/detection_20240309_140500.jpg";
         Print "Detections: 1 objects"]
    ∧ forallb (λ op, negb (is_indicator op)) recorded.(drawn) = true.
Proof.
  destruct (recorded_before_indicator Sample.text_size
              (Sample.tick Sample.sees_person WriteOk 115)
              Sample.recording Sample.blank Sample.capture 480 640 7
              [[Sample.person_box]] [Sample.person])
    as (s' & w' & after & Hbody & Htr & _ & Hsave & Hplain); try reflexivity.
  - discriminate.
  - by right.
  - eexists s', w', _. split; [exact Hbody|]. split; [|exact Hplain].
    rewrite Htr, Hsave by reflexivity. reflexivity.
Defined.

Lemma write_fault_ends_session_witness :
  ∃ s' w',
    run Sample.text_size Sample.session Sample.system Sample.blank
    = (Ok Returned, s', w')
    ∧ s'.(video_writer) = Some Sample.recorder
    ∧ is_available s'.(camera) = false.
Proof.
  assert (∃ s w,
            while_running Sample.text_size
              [Sample.tick Sample.sees_person WriteOk 114]
              (set_is_running true Sample.system)
              (logged Sample.blank
                 [Print ("Starting detection... (Press 'q' to quit)" +:+ NL)])
            = (Ok Waiting, s, w)
            ∧ s.(camera).(is_opened) = true
            ∧ s.(camera).(cap) = Some Sample.capture
            ∧ s.(video_writer) = Some Sample.recorder)
    as (s & w & Hpre & Hopen & Hcap & Hvw).
  { vm_compute. eexists _, _. repeat split; reflexivity. }
  destruct (write_fault_ends_session Sample.text_size
              [Sample.tick Sample.sees_person WriteOk 114]
              [Sample.tick Sample.sees_person WriteOk (-1)]
              (Sample.tick Sample.sees_person (WriteRaises "disk full") (-1))
              Sample.system s Sample.blank w Sample.capture 480 640 7
              Sample.recorder "disk full")
    as (s' & w' & quiet & Hrun & _ & _ & Hvw' & Hav);
    [reflexivity | exact Hpre | exact Hopen | exact Hcap | reflexivity
    | discriminate | exact Hvw | reflexivity |].
  exists s', w'. split; [exact Hrun|]. split; [exact Hvw' | exact Hav].
Defined.

Lemma main_exit_status_witness :
  exit_code (main Sample.text_size {| arg_camera := 0; arg_list_cameras := true |}
               (Sample.boot OpenClosed) [] Sample.blank).1 = Some 0
  ∧ exit_code (main Sample.text_size {| arg_camera := 0; arg_list_cameras := false |}
                 (Sample.boot OpenClosed) Sample.session Sample.blank).1 = Some 0.
Proof.
  split.
  - destruct (main_exit_status Sample.text_size
                {| arg_camera := 0; arg_list_cameras := true |}
                (Sample.boot OpenClosed) [] Sample.blank) as [Hlist _].
    apply Hlist. reflexivity.
  - destruct (main_exit_status Sample.text_size
                {| arg_camera := 0; arg_list_cameras := false |}
                (Sample.boot OpenClosed) Sample.session Sample.blank) as [_ Hrun].
    destruct (Hrun eq_refl eq_refl) as [Hclosed _].
    apply Hclosed. reflexivity.
Defined.

Lemma recording_uses_configured_rate_witness :
  _toggle_recording 0 Sample.moment Sample.system Sample.holding
  = (Ok tt, Sample.recording,
     logged Sample.holding
       [WriterOpen Sample.recorder;
        Print "Recording started: outputs/recording_20240309_140500.mp4"])
  ∧ stamp_shape (strftime_stamp Sample.moment) = true.
Proof.
  destruct (recording_uses_configured_rate 0 Sample.moment Sample.system
              Sample.holding Sample.image) as (Htoggle & _ & Hshape).
  - reflexivity.
  - reflexivity.
  - split; [exact Htoggle|]. apply Hshape. vm_compute. repeat split; discriminate.
Defined.


(** * Where the code departs from the specification *)

(* C1: a write fault on the second tick ends the run; the third tick is
   never processed although no quit key was read, and the writer attribute
   is still set. *)
Lemma write_fault_stops_the_loop :
  let end_of_run := run Sample.text_size Sample.session Sample.system Sample.blank in
  end_of_run.1.1 = Ok Returned
  ∧ end_of_run.1.2.(video_writer) = Some Sample.recorder
  ∧ count_events is_frame_output end_of_run.2.(trace) = 1%nat
  ∧ quit_key (-1) = false.
Proof. vm_compute. repeat split; reflexivity. Qed.

(* C2: with no camera to open, main() returns and the status is 0. *)
Lemma unavailable_camera_exits_zero :
  let outcome := main Sample.text_size {| arg_camera := 0; arg_list_cameras := false |}
                   (Sample.boot OpenClosed) Sample.session Sample.blank in
  reopens OpenClosed = false
  ∧ exit_code outcome.1 = Some 0
  ∧ ¬ (∃ status, exit_code outcome.1 = Some status ∧ status ≠ 0).
Proof.
  vm_compute. repeat split; try reflexivity.
  intros (status & [= <-] & Hnz). by apply Hnz.
Qed.

(* C4: the camera negotiated 15 frames per second, the writer is opened
   at 30. *)
Lemma recording_rate_is_the_configured_one :
  let started := (_toggle_recording 0 Sample.moment Sample.system Sample.holding).1.2 in
  Sample.system.(camera).(cap) = Some Sample.capture
  ∧ int_of_float Sample.capture.(prop_fps) = 15
  ∧ ∃ writer, started.(video_writer) = Some writer
              ∧ writer.(w_fps) = 30
              ∧ writer.(w_fps) ≠ int_of_float Sample.capture.(prop_fps).
Proof.
  vm_compute. split; [reflexivity|]. split; [reflexivity|].
  eexists. split; [reflexivity|]. split; [reflexivity | discriminate].
Qed.

(* C5: the frame handed to the writer has no recording indicator on it;
   the frame shown has. *)
Lemma recorded_frame_lacks_indicator :
  ∃ recorded shown,
    (loop_body Sample.text_size (Sample.tick Sample.sees_person WriteOk (-1))
       Sample.recording Sample.blank).2.(trace)
    = [WriterWrite Sample.recorder recorded; Imshow Config.WINDOW_NAME shown]
    ∧ existsb is_indicator recorded.(drawn) = false
    ∧ existsb is_indicator shown.(drawn) = true.
Proof. eexists _, _. vm_compute. repeat split; reflexivity. Qed.

(** * The scenarios of the specification, run on the model *)

Example label_with_confidence : label_of Sample.person = "person: 0.73".
Proof. vm_compute. reflexivity. Qed.

Example scan_finds_0_and_2 :
  (list_available_cameras (Sample.boot OpenClosed).(b_openable) 5 tt Sample.blank).1.1
  = Ok [0; 2].
Proof. vm_compute. reflexivity. Qed.

Example label_background_clipped_at_top :
  let background := Rectangle (10, -24) (142, 0) (0, 255, 0) (-1) in
  annotation_ops Sample.text_size Sample.person !! 1%nat = Some background
  ∧ covers (λ _ _, false) background (10, -1) = true
  ∧ writes (λ _ _, false) Sample.image background (10, -1) = false
  ∧ writes (λ _ _, false) Sample.image background (10, 0) = true.
Proof. vm_compute. repeat split; reflexivity. Qed.

Example second_release_finds_device_closed :
  device_open Sample.handler = true
  ∧ handle_releases 2 Sample.handler Sample.blank = 1%nat
  ∧ (release_times 2 Sample.handler Sample.blank).1.2
    = (release_times 1 Sample.handler Sample.blank).1.2.
Proof. vm_compute. repeat split; reflexivity. Qed.

Example rate_rounds_to_even : format_fixed 1 (2995 # 100) = "30.0".
Proof. vm_compute. reflexivity. Qed.

Example stamp_of_moment : strftime_stamp Sample.moment = "20240309_140500".
Proof. vm_compute. reflexivity. Qed.

Example toggling_twice_is_idle :
  ((do _ <- _toggle_recording 0 Sample.moment;
    _toggle_recording 0 Sample.moment) Sample.system Sample.holding).1.2
  = Sample.system.
Proof. vm_compute. reflexivity. Qed.

(** * Further properties of the code *)

Lemma probe_cameras_scan {S} openable ids : ∀ (s : S) w,
  ∃ es,
    probe_cameras openable ids s w
    = (Ok (List.filter openable ids), s, logged w es)
    ∧ count_events is_capture_open es = length ids
    ∧ count_events is_cap_release es = length (List.filter openable ids)
    ∧ Forall (λ e, match e with
                   | VideoCaptureOpen _ => True
                   | CapRelease i => openable i = true
                   | _ => False
                   end) es.
Proof.
  induction ids as [|i ids IH]; intros s w.
  - exists []. cbn [probe_cameras List.filter]. unfold ret. rewrite logged_nil.
    by repeat split.
  - cbn [probe_cameras List.filter]. unfold bind at 1, emit at 1.
    destruct (openable i) eqn:Hi.
    + unfold bind at 1, emit at 1. unfold bind at 1.
      edestruct IH as (es & -> & Hopen & Hrel & Hall).
      exists (VideoCaptureOpen i :: CapRelease i :: es). unfold ret.
      split; [by_logged|].
      change (VideoCaptureOpen i :: CapRelease i :: es)
        with ([VideoCaptureOpen i; CapRelease i] ++ es).
      rewrite !count_events_app, Hopen, Hrel.
      split; [done|]. split; [done|].
      apply Forall_app. split; [|done]. by repeat constructor.
    + edestruct IH as (es & -> & Hopen & Hrel & Hall).
      exists (VideoCaptureOpen i :: es). split; [by_logged|].
      change (VideoCaptureOpen i :: es) with ([VideoCaptureOpen i] ++ es).
      rewrite !count_events_app, Hopen, Hrel.
      split; [done|]. split; [done|]. by constructor.
Qed.

Lemma probe_cameras_trace {S} openable ids : ∀ (s : S) w,
  probe_cameras openable ids s w
  = (Ok (List.filter openable ids), s,
     logged w (flat_map (probe_events openable) ids)).
Proof.
  induction ids as [|i ids IH]; intros s w.
  - cbn. unfold ret. by rewrite logged_nil.
  - cbn [probe_cameras List.filter flat_map]. unfold probe_events at 1.
    unfold bind at 1, emit at 1.
    destruct (openable i).
    + unfold bind at 1, emit at 1. unfold bind at 1. rewrite IH. unfold ret.
      by_logged.
    + rewrite IH. by_logged.
Qed.

(** X1. [list_available_cameras] visits the indices 0, 1, ...,
    max_cameras - 1 in that order, builds one capture for each, and
    releases it at once when it reports isOpened(), and only then; it does
    nothing else.  It returns, in ascending order, the indices whose capture
    opened: an index is in the result exactly when it lies below
    [max_cameras] and its capture opened. *)
Theorem list_available_cameras_trace {S}
    (openable : Z → bool) (max_cameras : nat) (s : S) (w : World) :
  let ids := Z.of_nat <$> seq 0 max_cameras in
  list_available_cameras openable max_cameras s w
  = (Ok (List.filter openable ids), s,
     logged w (flat_map (λ i, if openable i
                              then [VideoCaptureOpen i; CapRelease i]
                              else [VideoCaptureOpen i]) ids))
  ∧ ∀ i, i ∈ List.filter openable ids
         ↔ (0 ≤ i < Z.of_nat max_cameras) ∧ openable i = true.
Proof.
  intros ids. split; [apply probe_cameras_trace|].
  intros i. rewrite list_elem_of_In, filter_In, <- list_elem_of_In.
  subst ids. rewrite list_elem_of_fmap. split.
  - intros [(k & -> & Hk%list_elem_of_In%in_seq) Ho]. split; [lia|done].
  - intros [Hi Ho]. split; [|done]. exists (Z.to_nat i). split; [lia|].
    apply list_elem_of_In, in_seq. lia.
Qed.

(** X2. With [--list-cameras], main() prints the announcement, probes
    the five indices 0..4, prints the list of those that opened, and
    returns: it creates no directory, loads no model, opens no window and
    runs no tick. *)
Theorem listing_only_scans (getTextSize : string → Z → Q → Z → (Z * Z) * Z)
    (args : Args) (b : Boot) (ticks : list Tick) (w : World) :
  args.(arg_list_cameras) = true →
  ∃ es,
    main getTextSize args b ticks w
    = (Ok Returned,
       logged w ([Print "Scanning for available cameras..."] ++ es
                 ++ [Print ("Available cameras: "
                            +:+ repr_list (List.filter b.(b_openable)
                                             (Z.of_nat <$> seq 0 5)))]))
    ∧ Forall (λ e, match e with
                   | VideoCaptureOpen _ | CapRelease _ => True
                   | _ => False
                   end) es
    ∧ count_events is_capture_open es = 5%nat.
Proof.
  intros Hlist. unfold main. rewrite Hlist.
  unfold bind at 1, print at 1, emit at 1. unfold bind at 1.
  unfold list_available_cameras.
  edestruct (probe_cameras_scan (S:=unit)) as (es & -> & Hopen & _ & Hall).
  exists es. py_unfold. split; [unfold logged; cbn; by rewrite <- !app_assoc|].
  split; [|exact Hopen]. eapply Forall_impl; [exact Hall|]. by intros [].
Qed.




(** X3. [read_frame] never raises and never changes the handler.  It
    reports success exactly when the handler is opened, holds a capture and
    cap.read() returned a true flag; on failure the frame is None; a handler
    that is not opened or holds no capture does not touch the device or the
    store; a frame that is returned is a fresh array of the store. *)
Theorem read_frame_outcome (o : ReadOutcome) (h : CameraHandler) (w : World) :
  ∃ ok frame w',
    read_frame o h w = (Ok (ok, frame), h, w')
    ∧ ok = holds_capture h && device_read_ok o
    ∧ (ok = false → frame = None)
    ∧ (holds_capture h = false → w' = w)
    ∧ (∀ i, frame = Some i → i = w.(next_id) ∧ is_Some (w'.(arrays) !! i)).
Proof.
  unfold read_frame, holds_capture. py_unfold.
  destruct (is_opened h); cbn [negb orb andb].
  2: { eexists _, _, _. split; [done|]. by repeat split. }
  destruct (cap h) as [c|]; cbn.
  2: { eexists _, _, _. split; [done|]. by repeat split. }
  destruct o as [msg|[] [[[r c'] p]|]]; cbn;
    (eexists _, _, _; split; [done|]; repeat split; try done).
  all: match goal with H : Some _ = Some _ |- _ => injection H as <- end.
  - done.
  - cbn [arrays]. rewrite lookup_insert_eq. by eexists.
Qed.

(** X4. After release(), whatever the device would answer, read_frame
    returns (False, None) without allocating a frame, and the camera is not
    available. *)
Theorem released_handler_reads_nothing
    (o : ReadOutcome) (h : CameraHandler) (w : World) :
  ∃ h' w',
    (do _ <- release; read_frame o) h w = (Ok (false, None), h', w')
    ∧ is_available h' = false
    ∧ w'.(arrays) = w.(arrays) ∧ w'.(next_id) = w.(next_id).
Proof.
  unfold bind.
  destruct (cap h) as [c|] eqn:Hc.
  - rewrite (release_held h c) by done.
    unfold read_frame. py_unfold. cbn.
    eexists _, _. by repeat split.
  - rewrite release_unheld by done.
    unfold read_frame. py_unfold. rewrite Hc.
    rewrite orb_true_r.
    eexists _, _. split; [done|]. unfold is_available. rewrite Hc.
    by rewrite andb_false_r.
Qed.

(** X5. reconnect() after a manual release() succeeds when the device
    opens: it returns True, the camera is available again under the same
    camera id, and get_camera_info reports the width, height and rate the
    device negotiated, truncated to integers, and its backend name. *)
Theorem reconnect_reports_negotiated_format
    (h : CameraHandler) (w : World) (width height rate : Q) (backend : string) :
  ∃ h' w',
    (do _ <- release; reconnect (OpenReady width height rate backend)) h w
    = (Ok true, h', w')
    ∧ is_available h' = true
    ∧ h'.(camera_id) = h.(camera_id)
    ∧ get_camera_info h'
      = Some {| info_camera_id := h.(camera_id);
                info_width := int_of_float width;
                info_height := int_of_float height;
                info_fps := int_of_float rate;
                info_backend := backend |}.
Proof.
  unfold bind at 1.
  destruct (cap h) as [c|] eqn:Hc.
  - rewrite (release_held h c) by done.
    unfold reconnect. unfold bind at 1, print at 1, emit at 1. unfold bind at 1.
    erewrite (release_held _ (released c)) by done.
    unfold _initialize_camera. py_unfold. cbn.
    eexists _, _. by repeat split.
  - rewrite release_unheld by done.
    unfold reconnect. unfold bind at 1, print at 1, emit at 1. unfold bind at 1.
    rewrite release_unheld by done.
    unfold _initialize_camera. py_unfold. cbn.
    eexists _, _. by repeat split.
Qed.

(** X6. A handler whose construction could not open the device (the
    constructor raised, isOpened() was False, or a property call raised) is
    not available and not opened, get_camera_info gives the empty answer,
    and every read_frame on it fails. *)
Theorem failed_open_has_no_info (id : Z) (o : OpenOutcome) (w : World) :
  reopens o = false →
  let h := (CameraHandler_init id o w).1.2 in
  get_camera_info h = None ∧ is_available h = false ∧ h.(is_opened) = false
  ∧ ∀ r w', (read_frame r h w').1.1 = Ok (false, None).
Proof.
  intros Hfail h. subst h.
  unfold CameraHandler_init, _initialize_camera. py_unfold.
  destruct o; try done; cbn; repeat split; try done;
    intros r w'; unfold read_frame; by py_unfold.
Qed.



(** X7. The loop that builds the detection list: when every box has a
    class the model names, it yields one detection per box, in order, with
    the coordinates truncated and the name looked up; otherwise it raises
    KeyError for the first box, in order, whose class is unknown. *)
Theorem collect_known_classes (class_names : gmap Z string) (boxes : list RawBox) :
  match collect class_names boxes with
  | Ok detections =>
      mapM (detection_of class_names) boxes = Some detections
      ∧ length detections = length boxes
  | Raise e =>
      ∃ known box rest,
        boxes = known ++ box :: rest
        ∧ Forall (λ b, is_Some (class_names !! int_of_float b.(cls))) known
        ∧ class_names !! int_of_float box.(cls) = None
        ∧ e = Exception (pretty (int_of_float box.(cls)))
  end.
Proof.
  induction boxes as [|box rest IH]; [done|].
  cbn [collect].
  destruct (xyxy box) as [[[x1 y1] x2] y2] eqn:Hxy.
  destruct (class_names !! int_of_float (cls box)) as [name|] eqn:Hname.
  - destruct (collect class_names rest) as [dets|e].
    + destruct IH as [Hmap Hlen]. split; [|cbn; by rewrite Hlen].
      cbn [mapM].
      assert (detection_of class_names box
              = Some {| bbox := (int_of_float x1, int_of_float y1,
                                 int_of_float x2, int_of_float y2);
                        confidence := box.(conf);
                        class_id := int_of_float box.(cls);
                        class_name := name |}) as ->
        by (unfold detection_of; by rewrite Hxy, Hname).
      cbn. by rewrite Hmap.
    + destruct IH as (known & bad & rest' & -> & Hknown & Hbad & ->).
      exists (box :: known), bad, rest'. split; [done|].
      split; [constructor; [by rewrite Hname|done]|]. done.
  - exists [], box, rest. by repeat split.
Qed.

Lemma int_of_float_floor q : (0 <= q)%Q → int_of_float q = Qfloor q.
Proof.
  destruct q as [n d]. unfold Qle, int_of_float, Qfloor. cbn. intros Hn.
  rewrite Z.mul_1_r in Hn. apply Z.quot_div_nonneg; lia.
Qed.

Lemma int_of_float_opp q : int_of_float (- q) = - int_of_float q.
Proof. destruct q as [n d]. unfold int_of_float. cbn. apply Z.quot_opp_l. lia. Qed.

Lemma int_of_float_nonneg q : (0 <= q)%Q → 0 ≤ int_of_float q.
Proof.
  intros Hq. rewrite int_of_float_floor by done.
  change 0 with (Qfloor 0). by apply Qfloor_resp_le.
Qed.

Lemma int_of_float_mono p q : (p <= q)%Q → int_of_float p ≤ int_of_float q.
Proof.
  intros Hpq.
  destruct (Qlt_le_dec p 0) as [Hp|Hp]; destruct (Qlt_le_dec q 0) as [Hq|Hq].
  - assert (Hp' : (0 <= - p)%Q) by (apply (Qopp_le_compat p 0); by apply Qlt_le_weak).
    assert (Hq' : (0 <= - q)%Q) by (apply (Qopp_le_compat q 0); by apply Qlt_le_weak).
    pose proof (int_of_float_floor _ Hp') as Ep.
    pose proof (int_of_float_floor _ Hq') as Eq.
    rewrite int_of_float_opp in Ep, Eq.
    pose proof (Qfloor_resp_le _ _ (Qopp_le_compat _ _ Hpq)). lia.
  - assert (Hp' : (0 <= - p)%Q) by (apply (Qopp_le_compat p 0); by apply Qlt_le_weak).
    pose proof (int_of_float_nonneg _ Hp') as Ep. rewrite int_of_float_opp in Ep.
    pose proof (int_of_float_nonneg _ Hq). lia.
  - exfalso. apply (Qlt_not_le _ _ Hq). by apply (Qle_trans _ p).
  - rewrite !int_of_float_floor by done. by apply Qfloor_resp_le.
Qed.

Lemma int_of_float_inject z : int_of_float (inject_Z z) = z.
Proof. unfold int_of_float. cbn. apply Z.quot_1_r. Qed.



(** X8. Truncating the coordinates keeps boxes valid: when every raw box
    has ordered corners within the pixel coordinates of the frame, every
    detection built from them has ordered integer corners inside the
    frame. *)
Theorem collect_keeps_boxes_valid
    (f : Frame) (class_names : gmap Z string) (boxes : list RawBox)
    (detections : list Detection) :
  Forall (box_inside f) boxes →
  collect class_names boxes = Ok detections →
  Forall (valid_detection f) detections.
Proof.
  revert detections. induction boxes as [|box rest IH]; intros dets Hin.
  - intros [= <-]. constructor.
  - apply Forall_cons in Hin as [Hbox Hrest]. cbn [collect].
    unfold box_inside in Hbox.
    destruct (xyxy box) as [[[x1 y1] x2] y2].
    destruct Hbox as (Hx0 & Hx & Hxw & Hy0 & Hy & Hyh).
    destruct (class_names !! int_of_float (cls box)) as [name|]; [|done].
    destruct (collect class_names rest) as [dets'|]; [|done].
    intros [= <-]. constructor; [|by apply IH].
    unfold valid_detection, in_frame. cbn [bbox fst snd].
    pose proof (int_of_float_nonneg _ Hx0).
    pose proof (int_of_float_nonneg _ Hy0).
    pose proof (int_of_float_mono _ _ Hx).
    pose proof (int_of_float_mono _ _ Hy).
    pose proof (int_of_float_mono _ _ Hxw) as Hc.
    pose proof (int_of_float_mono _ _ Hyh) as Hr.
    rewrite int_of_float_inject in Hc, Hr. lia.
Qed.

Section SparedInput.
Variable getTextSize : string → Z → Q → Z → (Z * Z) * Z.

(** X9. [detect_objects] never draws on the frame it is given and never
    changes the detector.  It either returns that same frame with no
    detections and an unchanged store, or a newly allocated copy, different
    from the input; the only exception that escapes it is
    KeyboardInterrupt, and then nothing has changed. *)
Theorem detect_objects_spares_input
    (frame : nat) (o : InferOutcome) (d : ObjectDetector) (w : World) :
  w.(arrays) !! w.(next_id) = None →
  let '(r, d', w') := detect_objects getTextSize frame o d w in
  d' = d
  ∧ w'.(arrays) !! frame = w.(arrays) !! frame
  ∧ match r with
    | Ok (returned, detections) =>
        returned = frame ∧ detections = [] ∧ w'.(arrays) = w.(arrays)
        ∨ returned = w.(next_id) ∧ returned ≠ frame
          ∧ is_Some (w.(arrays) !! frame)
    | Raise e => e = KeyboardInterrupt ∧ w' = w
    end.
Proof.
  intros Hfree.
  destruct (model d) as [m|] eqn:Hm.
  2: { rewrite detect_objects_unloaded by done. split; [done|]. split; [done|]. by left. }
  destruct o as [[msg|]|results].
  - rewrite detect_objects_raises by congruence.
    split; [done|]. split; [done|]. by left.
  - unfold detect_objects. py_unfold. rewrite Hm. by repeat split.
  - destruct (collect d.(class_names) (concat results)) as [dets|e] eqn:Hc.
    + destruct (w.(arrays) !! frame) as [f|] eqn:Hf.
      * rewrite (detect_objects_returns _ _ _ dets _ _ f) by (congruence || done).
        assert (w.(next_id) ≠ frame) by congruence.
        split; [done|]. cbn [arrays]. rewrite lookup_insert_ne by done.
        split; [done|]. right. by repeat split.
      * unfold detect_objects. py_unfold. rewrite Hm, Hc, Hf.
        cbn [arrays]. split; [done|]. split; [done|]. by left.
    + destruct (collect_raises _ _ _ Hc) as [key ->].
      rewrite (detect_objects_unknown_class _ _ _ key) by (congruence || done).
      split; [done|]. split; [done|]. by left.
Qed.
End SparedInput.

(** X10. A detector that was constructed has a model: its class names
    are that model's names, taken from the first load when it succeeded and
    from the fallback load otherwise, and its rate and frame count are 0.
    Construction raises only when both loads raise, with the second
    error. *)
Theorem constructed_detector_is_loaded
    (path : option string) (now : Q) (first fallback : YoloOutcome) (w : World) :
  match ObjectDetector_init path now first fallback w with
  | (Ok _, d, _) =>
      (∃ m, d.(model) = Some m ∧ d.(class_names) = m.(names)
            ∧ YoloLoads m.(names) = match first with
                                    | YoloLoads _ => first
                                    | YoloRaises _ => fallback
                                    end)
      ∧ d.(fps) = 0%Q ∧ d.(frame_count) = 0 ∧ d.(start_time) = now
      ∧ d.(model_path) = path_or_default path
  | (Raise e, _, _) =>
      ∃ msg1 msg2, first = YoloRaises msg1 ∧ fallback = YoloRaises msg2
                   ∧ e = Exception msg2
  end.
Proof.
  unfold ObjectDetector_init, _load_model, YOLO. py_unfold.
  destruct first as [msg1|names1]; [destruct fallback as [msg2|names2]|]; cbn.
  - by eexists _, _.
  - split; [|done]. by eexists.
  - split; [|done]. by eexists.
Qed.

(** X11. Starting from a non-negative rate and frame count, any sequence
    of calculate_fps calls returns, reports one value per call, none of them
    negative, and leaves the rate and the frame count non-negative. *)
Theorem rate_is_never_negative (clock : list (Q * Q)) :
  ∀ (d : ObjectDetector) (w : World),
  (0 <= d.(fps))%Q → 0 ≤ d.(frame_count) →
  ∃ reports d',
    fps_reports clock d w = (Ok reports, d', w)
    ∧ length reports = length clock
    ∧ Forall (λ r, (0 <= r)%Q) reports
    ∧ (0 <= d'.(fps))%Q ∧ 0 ≤ d'.(frame_count).
Proof.
  induction clock as [|[now1 now2] clock IH]; intros d w Hfps Hcount.
  - exists [], d. by repeat split.
  - cbn [fps_reports]. unfold bind at 1. rewrite calculate_fps_counted.
    assert ((0 <= (counted now1 now2 d).(fps))%Q ∧ 0 ≤ (counted now1 now2 d).(frame_count))
      as [Hfps' Hcount'].
    { unfold counted. destruct (Qlt_le_dec 1 (now1 - start_time d)) as [Hlt|Hle];
        cbn [fps frame_count set_frame_count]; [|split; [done|lia]].
      split; [|done]. apply Qle_shift_div_l.
      - apply (Qlt_trans _ 1); [done|exact Hlt].
      - rewrite Qmult_0_l. change 0%Q with (inject_Z 0). rewrite <- Zle_Qle. lia. }
    destruct (IH (counted now1 now2 d) w Hfps' Hcount')
      as (reports & d' & Hrun & Hlen & Hall & Hf & Hc).
    unfold bind at 1. rewrite Hrun. unfold ret.
    exists ((counted now1 now2 d).(fps) :: reports), d'.
    split; [done|]. split; [cbn; by rewrite Hlen|].
    split; [by constructor|]. done.
Qed.



Lemma keeps_bind {S A B C} (f : S → C) (m : Py S A) (k : A → Py S B) :
  keeps f m → (∀ a, keeps f (k a)) → keeps f (bind m k).
Proof.
  intros Hm Hk s w. unfold bind. specialize (Hm s w).
  destruct (m s w) as [[[a|e] s1] w1]; cbn [fst snd] in *; [|done].
  by rewrite Hk.
Qed.

Lemma keeps_still {S A B} (f : S → B) (m : Py S A) :
  (∀ s w, (m s w).1.2 = s) → keeps f m.
Proof. intros H s w. by rewrite H. Qed.

Lemma keeps_on {T S A B} (f : T → B) (get : T → S) (set : S → T → T) (m : Py S A) :
  (∀ s t, f (set s t) = f t) → keeps f (on get set m).
Proof.
  intros Hset t w. unfold on. destruct (m (get t) w) as [[r s'] w']. apply Hset.
Qed.

Lemma keeps_try_except {S A B} (f : S → B) (body : Py S A) handler :
  keeps f body → (∀ msg, keeps f (handler msg)) → keeps f (try_except body handler).
Proof.
  intros Hb Hh s w. unfold try_except. specialize (Hb s w).
  destruct (body s w) as [[[a|[msg|]] s1] w1]; cbn [fst snd] in *; try done.
  by rewrite Hh.
Qed.

Lemma keeps_print_detections {S B} (f : S → B) dets : ∀ i,
  keeps f (print_detections (S:=S) i dets).
Proof.
  induction dets as [|det rest IH]; intros i; [by apply keeps_still|].
  cbn [print_detections]. apply keeps_bind; [by apply keeps_still|].
  intros _. apply IH.
Qed.

Ltac keeps_step :=
  match goal with
  | |- keeps _ (bind _ _) => apply keeps_bind; [|intros ?]
  | |- keeps _ (on_camera _) => apply keeps_on; by intros ? []
  | |- keeps _ (on_detector _) => apply keeps_on; by intros ? []
  | |- keeps _ (print_detections _ _) => apply keeps_print_detections
  | |- keeps _ (match ?x with _ => _ end) => destruct x
  | |- keeps _ (if ?b then _ else _) => destruct b
  | |- keeps _ _ => by apply keeps_still
  end.

Section KeptReadings.
Variable getTextSize : string → Z → Q → Z → (Z * Z) * Z.

Lemma keeps_save_frame {B} (f : ObjectDetectionSystem → B) a dets now :
  keeps f (_save_frame a dets now).
Proof. unfold _save_frame, pixels. repeat keeps_step. Qed.

Lemma keeps_show_detection_info {B} (f : ObjectDetectionSystem → B) dets :
  keeps f (_show_detection_info dets).
Proof. unfold _show_detection_info. repeat keeps_step. Qed.

Lemma keeps_annotate {B} (f : ObjectDetectionSystem → B) t frame :
  (∀ d s, f (set_detector d s) = f s) →
  keeps f (annotate getTextSize t frame).
Proof.
  intros Hd. unfold annotate.
  apply keeps_bind; [apply keeps_on; exact Hd|]. intros [a dets].
  apply keeps_bind; [cbn [Config.SHOW_FPS]; apply keeps_on; exact Hd|]. intros a'.
  repeat keeps_step.
Qed.

Lemma keeps_record {B} (f : ObjectDetectionSystem → B) o a : keeps f (record o a).
Proof. unfold record, pixels. repeat keeps_step. Qed.

Lemma keeps_display {B} (f : ObjectDetectionSystem → B) a : keeps f (display a).
Proof. unfold display, pixels. repeat keeps_step. Qed.

Lemma keeps_toggle_recording {B} (f : ObjectDetectionSystem → B) a now :
  (∀ v s, f (set_video_writer v s) = f s) →
  keeps f (_toggle_recording a now).
Proof.
  intros Hv. unfold _toggle_recording, pixels.
  apply keeps_bind; [by apply keeps_still|]. intros s0.
  destruct (video_writer s0).
  - apply keeps_bind; [by apply keeps_still|]. intros _.
    apply keeps_bind; [intros s w; apply Hv|]. intros _. by apply keeps_still.
  - apply keeps_bind; [repeat keeps_step|]. intros image.
    apply keeps_bind; [by apply keeps_still|]. intros _.
    apply keeps_bind; [intros s w; apply Hv|]. intros _. by apply keeps_still.
Qed.

Lemma keeps_recovery {B} (f : ObjectDetectionSystem → B) t :
  (∀ c s, f (set_camera c s) = f s) →
  keeps f (do _ <- print "Failed to read frame. Attempting reconnection...";
           do again <- on_camera (reconnect t.(t_reopen));
           if negb again then
             do _ <- print "Could not reconnect to camera. Exiting...";
             ret Break
           else ret Continue).
Proof.
  intros Hc. apply keeps_bind; [by apply keeps_still|]. intros _.
  apply keeps_bind; [apply keeps_on; exact Hc|]. intros again.
  repeat keeps_step.
Qed.

Lemma keeps_handle_key {B} (f : ObjectDetectionSystem → B) pressed a dets now :
  (Z.land pressed 255 = 114 → ∀ v s, f (set_video_writer v s) = f s) →
  keeps f (handle_key pressed a dets now).
Proof.
  intros Hr. unfold handle_key.
  destruct (_ || _); [repeat keeps_step|].
  destruct (_ =? 115);
    [apply keeps_bind; [apply keeps_save_frame|]; intros; by apply keeps_still|].
  destruct (Z.land pressed 255 =? 114) eqn:Hk.
  { apply Z.eqb_eq in Hk.
    apply keeps_bind; [apply keeps_toggle_recording; by apply Hr|].
    intros; by apply keeps_still. }
  destruct (_ =? 105);
    [apply keeps_bind; [apply keeps_show_detection_info|];
     intros; by apply keeps_still|].
  by apply keeps_still.
Qed.

(* What a pass through the loop body can change of the system: the camera
   handler, the detector, and, on the key 'r' only, the writer. *)
Lemma keeps_loop_body {B} (f : ObjectDetectionSystem → B) t :
  (∀ c s, f (set_camera c s) = f s) →
  (∀ d s, f (set_detector d s) = f s) →
  (Z.land t.(t_key) 255 = 114 → ∀ v s, f (set_video_writer v s) = f s) →
  keeps f (loop_body getTextSize t).
Proof.
  intros Hc Hd Hv. unfold loop_body.
  apply keeps_bind; [apply keeps_on; exact Hc|]. intros [ok frame].
  destruct (if ok then frame else None) as [fr|].
  - apply keeps_bind; [by apply keeps_annotate|]. intros [a dets].
    apply keeps_bind; [apply keeps_record|]. intros _.
    apply keeps_bind; [apply keeps_display|]. intros _.
    by apply keeps_handle_key.
  - by apply keeps_recovery.
Qed.

(** X12. Nothing in the loop body clears is_running: when the loop is
    left without an exception, is_running is still True and the last pass
    ended in [break]. *)
Theorem loop_exits_only_by_break
    (ticks : list Tick) (s s' : ObjectDetectionSystem) (w w' : World) :
  s.(is_running) = true →
  while_running getTextSize ticks s w = (Ok Exited, s', w') →
  s'.(is_running) = true
  ∧ ∃ before t s1 w1,
      before ++ [t] `prefix_of` ticks
      ∧ while_running getTextSize before s w = (Ok Waiting, s1, w1)
      ∧ loop_body getTextSize t s1 w1 = (Ok Break, s', w').
Proof.
  assert (Hkeep : ∀ t, keeps is_running (loop_body getTextSize t)).
  { intros t. apply keeps_loop_body; by intros ? []. }
  revert s w. induction ticks as [|t0 ticks IH]; intros s w Hgo.
  - rewrite while_running_nil, Hgo. done.
  - rewrite while_running_cons, Hgo.
    pose proof (Hkeep t0 s w) as Hk.
    destruct (loop_body getTextSize t0 s w) as [[[[|]|e] s1] w1] eqn:Hbody;
      cbn [fst snd] in Hk; [| |done].
    + intros Hrest.
      destruct (IH s1 w1) as (Hrun' & before & t' & s2 & w2 & Hpre & Hrun & Hb);
        [congruence | done |].
      split; [done|].
      exists (t0 :: before), t', s2, w2. split; [by apply prefix_cons|].
      split; [|done]. by rewrite while_running_cons, Hgo, Hbody.
    + intros [= <- <-]. split; [congruence|]. exists [], t0, s, w.
      split; [apply prefix_cons, prefix_nil|].
      split; [by rewrite while_running_nil, Hgo|done].
Qed.

(** X13. Recording never starts or stops by itself: a pass through the
    loop body, however it ends, leaves video_writer as it was unless the key
    read is 'r'. *)
Theorem recording_changes_only_on_r
    (t : Tick) (s : ObjectDetectionSystem) (w : World) :
  Z.land t.(t_key) 255 ≠ 114 →
  (loop_body getTextSize t s w).1.2.(video_writer) = s.(video_writer).
Proof.
  intros Hkey. apply (keeps_loop_body video_writer t); by intros ? [].
Qed.

(** X14. Two toggles in a row: from Idle they open a writer and release
    that same writer, and the system is back as it was; from Active they
    release the old writer and open a new one, named after the second
    time stamp. *)
Theorem toggle_recording_twice
    (frame : nat) (now1 now2 : datetime) (s : ObjectDetectionSystem) (w : World)
    (image : Frame) :
  w.(arrays) !! frame = Some image →
  let fresh stamp :=
    {| w_filename := Config.OUTPUT_DIR +:+ "/recording_" +:+ strftime_stamp stamp
                     +:+ ".mp4";
       w_fourcc := "mp4v"; w_fps := Config.CAMERA_FPS;
       w_frame_size := (image.(cols), image.(rows)) |} in
  (do _ <- _toggle_recording frame now1; _toggle_recording frame now2) s w
  = match s.(video_writer) with
    | None =>
        (Ok tt, s,
         logged w [WriterOpen (fresh now1);
                   Print ("Recording started: " +:+ (fresh now1).(w_filename));
                   WriterRelease (fresh now1); Print "Recording stopped"])
    | Some old =>
        (Ok tt, set_video_writer (Some (fresh now2)) s,
         logged w [WriterRelease old; Print "Recording stopped";
                   WriterOpen (fresh now2);
                   Print ("Recording started: " +:+ (fresh now2).(w_filename))])
    end.
Proof.
  intros Himage fresh. unfold _toggle_recording. py_unfold.
  destruct (video_writer s) as [old|] eqn:Hv; cbn [video_writer set_video_writer];
    py_run; rewrite Himage; py_run.
  - by_logged.
  - destruct s; cbn in *; subst. by_logged.
Qed.

Lemma print_detections_lines {S} dets : ∀ i (s : S) w,
  print_detections i dets s w
  = (Ok tt, s,
     logged w (imap (λ k det,
                 Print (pretty (i + k)%nat +:+ ". " +:+ det.(class_name)
                        +:+ " - Confidence: "
                        +:+ format_fixed 2 (det.(confidence) * 100)%Q +:+ "%"))
               dets)).
Proof.
  induction dets as [|det rest IH]; intros i s w.
  - cbn. unfold ret. by rewrite logged_nil.
  - cbn [print_detections imap]. unfold bind at 1, print at 1, emit at 1.
    rewrite IH. rewrite Nat.add_0_r.
    unfold logged. cbn [arrays next_id trace]. rewrite <- app_assoc.
    do 3 f_equal. cbn [app]. f_equal. apply imap_ext. intros k d _. cbn.
    by rewrite Nat.add_succ_r.
Qed.

(** X15. [_show_detection_info] only prints: a header of three lines,
    then "No objects detected" or one line per detection numbered from 1,
    with the confidence as a percentage with two decimals, then a closing
    rule.  The system is unchanged. *)
Theorem show_detection_info_lines
    (detections : list Detection) (s : ObjectDetectionSystem) (w : World) :
  _show_detection_info detections s w
  = (Ok tt, s,
     logged w
       ([Print (NL +:+ str_repeat "=" 60);
         Print ("CURRENT DETECTIONS: " +:+ pretty (length detections));
         Print (str_repeat "=" 60)]
        ++ match detections with
           | [] => [Print "No objects detected"]
           | _ => imap (λ k det,
                    Print (pretty (S k) +:+ ". " +:+ det.(class_name)
                           +:+ " - Confidence: "
                           +:+ format_fixed 2 (det.(confidence) * 100)%Q +:+ "%"))
                    detections
           end
        ++ [Print (str_repeat "=" 60 +:+ NL)])).
Proof.
  unfold _show_detection_info. py_unfold.
  destruct detections as [|det rest]; [by_logged|].
  rewrite print_detections_lines. by_logged.
Qed.
End KeptReadings.





Lemma only_snapshots_counts f es :
  only_snapshots_of f es →
  count_events is_writer_write es = 0%nat ∧ count_events is_imshow es = 0%nat.
Proof.
  induction 1 as [|e es He _ [IH1 IH2]]; [done|].
  change (e :: es) with ([e] ++ es). rewrite !count_events_app, IH1, IH2.
  by destruct e.
Qed.

Lemma only_snapshots_written f wr es : only_snapshots_of f es → written_to wr es.
Proof. intros H. eapply Forall_impl; [exact H|]. by intros []. Qed.

Lemma only_prints_silent_writes es :
  only_prints es → count_events is_writer_write es = 0%nat.
Proof.
  induction 1 as [|e es He _ IH]; [done|].
  change (e :: es) with ([e] ++ es). rewrite count_events_app, IH. by destruct e.
Qed.

Lemma only_prints_silent_shows es :
  only_prints es → count_events is_imshow es = 0%nat.
Proof.
  induction 1 as [|e es He _ IH]; [done|].
  change (e :: es) with ([e] ++ es). rewrite count_events_app, IH. by destruct e.
Qed.

Section SteadyTicks.
Variable getTextSize : string → Z → Q → Z → (Z * Z) * Z.

Lemma steady_tick_records t s w c wr :
  s.(camera).(is_opened) = true → s.(camera).(cap) = Some c →
  s.(video_writer) = Some wr → steady t = true →
  ∃ s' w' es,
    loop_body getTextSize t s w = (Ok Continue, s', w')
    ∧ w'.(trace) = w.(trace) ++ es
    ∧ count_events is_writer_write es = 1%nat
    ∧ count_events is_imshow es = 1%nat
    ∧ written_to wr es
    ∧ s'.(camera) = s.(camera) ∧ s'.(video_writer) = Some wr
    ∧ s'.(is_running) = s.(is_running).
Proof.
  intros Hopen Hcap Hvw Hsteady. unfold steady in Hsteady.
  repeat (apply andb_true_iff in Hsteady as [Hsteady ?]).
  destruct (t_read t) as [|[] [[[r cl] p]|]] eqn:Hread; try done.
  assert (Hinfer : t.(t_infer) ≠ InferRaises KeyboardInterrupt)
    by (intros E; by rewrite E in *).
  assert (Hwrite : t.(t_write) = WriteOk) by (by destruct (t_write t)).
  assert (Hquit : quit_key t.(t_key) = false) by (by destruct (quit_key _)).
  assert (Hkey : Z.land t.(t_key) 255 ≠ 114)
    by (apply Z.eqb_neq; by destruct (_ =? 114)).
  pose (base := {| rows := r; cols := cl; payload := p; drawn := [] |}).
  destruct (detect_objects_store getTextSize w.(next_id) t.(t_infer) s.(detector)
              base w.(arrays) (S w.(next_id)) w.(trace) Hinfer)
    as (a & dets & fa & m & n & esd & Hdetect & Hesd).
  destruct (loop_body_shown getTextSize t s w c r cl p Hopen Hcap Hread
              a dets s.(detector) fa m n (w.(trace) ++ esd) Hdetect
              (or_intror Hwrite))
    as (s' & w' & after & Hbody & Htr & Hsnap & _ & Hcam & _ & Hrun).
  rewrite Hquit in Hbody. rewrite Hvw in Htr, Hsnap.
  assert (Hkeep : (loop_body getTextSize t s w).1.2.(video_writer)
                  = s.(video_writer))
    by (apply (keeps_loop_body getTextSize video_writer t); by intros ? []).
  rewrite Hbody in Hkeep. cbn [fst snd] in Hkeep.
  destruct (only_snapshots_counts _ _ Hsnap) as (Hw0 & Hi0).
  eexists s', w', _. split; [done|].
  split; [rewrite Htr; by rewrite <- app_assoc|].
  rewrite !count_events_app, Hw0, Hi0.
  rewrite (only_prints_silent_writes esd), (only_prints_silent_shows esd) by done.
  split; [done|]. split; [done|].
  split; [|by rewrite Hkeep].
  apply Forall_app. split.
  { eapply Forall_impl; [exact Hesd|]. by intros []. }
  apply Forall_cons. split; [done|]. apply Forall_cons. split; [done|].
  by apply (only_snapshots_written _ _ _ Hsnap).
Qed.
End SteadyTicks.


Section ExitPaths.
Variable getTextSize : string → Z → Q → Z → (Z * Z) * Z.

(** X16. While recording, [n] ticks in a row that read a frame, are not
    interrupted and read neither a quit key nor 'r' write exactly [n] frames,
    all to the writer that was open, show [n] frames, and leave that writer
    open and the loop running. *)
Theorem recording_writes_every_frame (ticks : list Tick) :
  ∀ (s : ObjectDetectionSystem) (w : World) (c : VideoCapture) (wr : VideoWriter),
  s.(camera).(is_opened) = true → s.(camera).(cap) = Some c →
  s.(is_running) = true → s.(video_writer) = Some wr →
  forallb steady ticks = true →
  ∃ s' w' es,
    while_running getTextSize ticks s w = (Ok Waiting, s', w')
    ∧ w'.(trace) = w.(trace) ++ es
    ∧ count_events is_writer_write es = length ticks
    ∧ count_events is_imshow es = length ticks
    ∧ written_to wr es
    ∧ s'.(video_writer) = Some wr.
Proof.
  induction ticks as [|t ticks IH]; intros s w c wr Hopen Hcap Hgo Hvw Hall.
  - exists s, w, []. rewrite while_running_nil, Hgo, app_nil_r.
    by repeat split; try constructor.
  - cbn [forallb] in Hall. apply andb_true_iff in Hall as [Ht Hrest].
    destruct (steady_tick_records getTextSize t s w c wr Hopen Hcap Hvw Ht)
      as (s1 & w1 & es1 & Hbody & Htr1 & Hw1 & Hi1 & Hto1 & Hcam & Hvw1 & Hrun1).
    destruct (IH s1 w1 c wr) as (s' & w' & es & Hloop & Htr & Hw & Hi & Hto & Hvw');
      [by rewrite Hcam | by rewrite Hcam | congruence | done | done |].
    exists s', w', (es1 ++ es).
    split; [by rewrite while_running_cons, Hgo, Hbody|].
    split; [rewrite Htr, Htr1; by rewrite <- app_assoc|].
    rewrite !count_events_app, Hw1, Hi1, Hw, Hi.
    split; [done|]. split; [done|]. split; [by apply Forall_app|done].
Qed.

(* The loop body leaves the camera handler alone, or replaces it by what
   one reconnect made of it. *)
Lemma loop_body_camera t s w r s' w' :
  loop_body getTextSize t s w = (r, s', w') →
  s'.(camera) = s.(camera)
  ∨ ∃ w0, s'.(camera) = (reconnect t.(t_reopen) s.(camera) w0).1.2.
Proof.
  unfold loop_body. unfold bind at 1. unfold on_camera at 1, on at 1.
  destruct (read_frame_result t.(t_read) s.(camera) w) as ([ok frame] & w1 & -> & _).
  rewrite set_camera_same.
  destruct (if ok then frame else None) as [fr|].
  - intros Hrun. left.
    assert (Hk : keeps camera
              (do '(annotated_frame, detections) <- annotate getTextSize t fr;
               do _ <- record t.(t_write) annotated_frame;
               do _ <- display annotated_frame;
               handle_key t.(t_key) annotated_frame detections t.(t_now))).
    { apply keeps_bind; [apply keeps_annotate; by intros ? []|]. intros [a dets].
      apply keeps_bind; [apply keeps_record|]. intros _.
      apply keeps_bind; [apply keeps_display|]. intros _.
      apply keeps_handle_key. by intros _ ? []. }
    specialize (Hk s w1). by rewrite Hrun in Hk.
  - unfold bind at 1, print at 1, emit at 1. unfold bind at 1. unfold on_camera, on.
    intros Hrun. right.
    exists {| arrays := arrays w1; next_id := next_id w1;
              trace := trace w1
                       ++ [Print "Failed to read frame. Attempting reconnection..."] |}.
    destruct (reconnect _ _ _) as [[[again|e] h'] w2]; cbn [fst snd].
    + destruct (negb again); py_unfold; by injection Hrun as _ <- _.
    + by injection Hrun as _ <- _.
Qed.

Lemma reconnect_holds_capture o h w :
  h.(cap) ≠ None → (reconnect o h w).1.2.(cap) ≠ None.
Proof.
  intros Hc. unfold reconnect, release, _initialize_camera. py_unfold.
  destruct (cap h) as [c|] eqn:E; [|done]. by destruct o.
Qed.

Lemma while_running_holds_capture ticks : ∀ s w,
  s.(camera).(cap) ≠ None →
  (while_running getTextSize ticks s w).1.2.(camera).(cap) ≠ None.
Proof.
  induction ticks as [|t ticks IH]; intros s w Hc.
  - by rewrite while_running_nil.
  - rewrite while_running_cons. destruct (is_running s); [|done].
    destruct (loop_body getTextSize t s w) as [[r s1] w1] eqn:Hbody.
    assert (Hheld : s1.(camera).(cap) ≠ None).
    { destruct (loop_body_camera _ _ _ _ _ _ Hbody) as [->|[w0 ->]];
        [done|by apply reconnect_holds_capture]. }
    destruct r as [[|]|e]; [by apply IH | done | done].
Qed.

(** X17. When run() has entered its loop and returns, by break, by an
    exception or by an interrupt, the clean-up has run: the trace ends with
    the release of the writer, if one is set, the release of the camera, and
    the closing of the windows, and the camera is no longer available. *)
Theorem run_cleans_up_on_every_exit
    (ticks : list Tick) (s s' : ObjectDetectionSystem) (w w' : World) :
  is_available s.(camera) = true →
  run getTextSize ticks s w = (Ok Returned, s', w') →
  is_available s'.(camera) = false
  ∧ s'.(camera).(is_opened) = false
  ∧ ∃ tr device,
      w'.(trace)
      = tr ++ match s'.(video_writer) with
              | Some wr => [WriterRelease wr]
              | None => []
              end
        ++ [CapRelease device; Print "Camera released"; DestroyAllWindows;
            Print "System shutdown complete"; Print (str_repeat "=" 60)].
Proof.
  intros Hav. unfold run. unfold bind at 1, self at 1. rewrite Hav. cbn [negb].
  unfold bind at 1, assign at 1. unfold bind at 1, print at 1, emit at 1.
  assert (Hheld : (set_is_running true s).(camera).(cap) ≠ None).
  { cbn. unfold is_available in Hav. destruct (cap (camera s)); [done|].
    by rewrite andb_false_r in Hav. }
  match goal with |- context [while_running getTextSize ticks ?s0 ?w0] =>
    pose proof (while_running_holds_capture ticks s0 w0 Hheld) as Hc;
    destruct (while_running getTextSize ticks s0 w0) as [[r s1] w1] end.
  cbn [fst snd] in Hc.
  destruct (cap (camera s1)) as [c|] eqn:Ecap; [clear Hc|done].
  assert (Hclean : ∀ w2,
            (do _ <- cleanup; ret Returned) s1 w2 = (Ok Returned, s', w') →
            is_available s'.(camera) = false
            ∧ s'.(camera).(is_opened) = false
            ∧ ∃ tr device,
                w'.(trace)
                = tr ++ match s'.(video_writer) with
                        | Some wr => [WriterRelease wr]
                        | None => []
                        end
                  ++ [CapRelease device; Print "Camera released"; DestroyAllWindows;
                      Print "System shutdown complete"; Print (str_repeat "=" 60)]).
  { intros w2. unfold bind at 1.
    destruct (cleanup_result s1 w2) as (es & -> & Hes). rewrite Ecap in *.
    unfold ret. intros [= <- <-]. cbn [camera set_camera video_writer is_opened].
    split; [done|]. split; [done|].
    exists (w2.(trace) ++ [Print (NL +:+ "Cleaning up...")]), c.(device).
    subst es. cbn [logged trace]. rewrite <- !app_assoc.
    by destruct (video_writer s1). }
  destruct r as [[|]|[msg|]].
  - apply Hclean.
  - done.
  - unfold bind at 1, print at 1, emit at 1. apply Hclean.
  - unfold bind at 1, print at 1, emit at 1. apply Hclean.
Qed.

Lemma detect_objects_interrupted frame d w :
  d.(model) ≠ None →
  detect_objects getTextSize frame (InferRaises KeyboardInterrupt) d w
  = (Raise KeyboardInterrupt, d, w).
Proof.
  intros Hm. unfold detect_objects. py_unfold. by destruct (model d).
Qed.

(** X18. A keyboard interrupt during inference is not swallowed by
    detect_objects: it leaves the loop, run() prints "Interrupted by user",
    cleans up and returns; no "Detection error" is printed and nothing of
    that tick is shown or recorded. *)
Theorem keyboard_interrupt_ends_run
    (pre rest : list Tick) (t : Tick) (s0 s : ObjectDetectionSystem)
    (w0 w : World) (c : VideoCapture) (r cl : Z) (p : nat) :
  is_available s0.(camera) = true →
  while_running getTextSize pre (set_is_running true s0)
    (logged w0 [Print ("Starting detection... (Press 'q' to quit)" +:+ NL)])
  = (Ok Waiting, s, w) →
  s.(camera).(is_opened) = true → s.(camera).(cap) = Some c →
  t.(t_read) = ReadReturns true (Some (r, cl, p)) →
  s.(detector).(model) ≠ None →
  t.(t_infer) = InferRaises KeyboardInterrupt →
  ∃ s' w',
    run getTextSize (pre ++ t :: rest) s0 w0 = (Ok Returned, s', w')
    ∧ w'.(trace)
      = w.(trace)
        ++ [Print (NL +:+ "Interrupted by user"); Print (NL +:+ "Cleaning up...")]
        ++ match s.(video_writer) with
           | Some wr => [WriterRelease wr]
           | None => []
           end
        ++ [CapRelease c.(device); Print "Camera released"; DestroyAllWindows;
            Print "System shutdown complete"; Print (str_repeat "=" 60)]
    ∧ s'.(detector) = s.(detector)
    ∧ is_available s'.(camera) = false.
Proof.
  intros Havail Hpre Hopen Hcap Hread Hmodel Hinfer.
  pose proof (while_running_waiting _ _ _ _ _ _ Hpre) as Hgo.
  assert (Hbody : ∃ w1, loop_body getTextSize t s w = (Raise KeyboardInterrupt, s, w1)
                        ∧ w1.(trace) = w.(trace)).
  { exists {| arrays := <[w.(next_id) := {| rows := r; cols := cl; payload := p;
                                            drawn := [] |}]> w.(arrays);
              next_id := S w.(next_id); trace := w.(trace) |}.
    unfold loop_body. unfold bind at 1. unfold on_camera at 1, on at 1.
    rewrite Hread, (read_frame_image _ _ c) by done. rewrite set_camera_same.
    unfold bind at 1. unfold annotate. unfold bind at 1.
    unfold on_detector at 1, on at 1. rewrite Hinfer.
    rewrite detect_objects_interrupted by done.
    split; [|reflexivity]. by destruct s. }
  destruct Hbody as (w1 & Hbody & Htr1).
  unfold run. unfold bind at 1, self at 1. rewrite Havail. cbn [negb].
  unfold bind at 1, assign at 1. unfold bind at 1, print at 1, emit at 1.
  change {| arrays := arrays w0; next_id := next_id w0;
            trace := trace w0
                     ++ [Print ("Starting detection... (Press 'q' to quit)" +:+ NL)] |}
    with (logged w0 [Print ("Starting detection... (Press 'q' to quit)" +:+ NL)]).
  rewrite while_running_app, Hpre, while_running_cons, Hgo, Hbody.
  unfold bind at 1, print at 1, emit at 1. unfold bind at 1.
  edestruct cleanup_result as (ces & -> & Hces). rewrite Hcap in *.
  eexists _, _. split; [reflexivity|].
  split; [subst ces; cbn [logged trace]; rewrite Htr1; by rewrite <- !app_assoc|].
  by split.
Qed.
End ExitPaths.

(** * The further properties on sample inputs *)

Lemma listing_only_scans_witness :
  ∃ es,
    main Sample.text_size {| arg_camera := 0; arg_list_cameras := true |}
      (Sample.boot OpenClosed) Sample.session Sample.blank
    = (Ok Returned,
       logged Sample.blank
         ([Print "Scanning for available cameras..."] ++ es
          ++ [Print "Available cameras: [0, 2]"]))
    ∧ count_events is_capture_open es = 5%nat.
Proof.
  destruct (listing_only_scans Sample.text_size
              {| arg_camera := 0; arg_list_cameras := true |}
              (Sample.boot OpenClosed) Sample.session Sample.blank)
    as (es & Hmain & _ & Hopens).
  - reflexivity.
  - exists es. split; [exact Hmain | exact Hopens].
Defined.

Lemma failed_open_has_no_info_witness :
  get_camera_info (CameraHandler_init 0 OpenClosed Sample.blank).1.2 = None
  ∧ is_available (CameraHandler_init 0 OpenClosed Sample.blank).1.2 = false.
Proof.
  destruct (failed_open_has_no_info 0 OpenClosed Sample.blank) as (Hinfo & Hav & _).
  - reflexivity.
  - split; [exact Hinfo | exact Hav].
Defined.

Lemma collect_keeps_boxes_valid_witness :
  Forall (valid_detection Sample.image) [Sample.person].
Proof.
  apply (collect_keeps_boxes_valid Sample.image Sample.coco [Sample.person_box]).
  - repeat constructor; vm_compute; discriminate.
  - vm_compute. reflexivity.
Defined.

Lemma detect_objects_spares_input_witness :
  let '(r, d', w') :=
    detect_objects Sample.text_size 0 Sample.sees_person Sample.yolo Sample.holding in
  d' = Sample.yolo
  ∧ w'.(arrays) !! 0%nat = Sample.holding.(arrays) !! 0%nat
  ∧ match r with
    | Ok (returned, detections) =>
        returned = 0%nat ∧ detections = [] ∧ w'.(arrays) = Sample.holding.(arrays)
        ∨ returned = Sample.holding.(next_id) ∧ returned ≠ 0%nat
          ∧ is_Some (Sample.holding.(arrays) !! 0%nat)
    | Raise e => e = KeyboardInterrupt ∧ w' = Sample.holding
    end.
Proof.
  apply (detect_objects_spares_input Sample.text_size 0 Sample.sees_person
           Sample.yolo Sample.holding).
  vm_compute. reflexivity.
Defined.

Lemma rate_is_never_negative_witness :
  ∃ reports d',
    fps_reports [(1 # 2, 1 # 2); (3 # 2, 3 # 2); (2, 2)]%Q Sample.yolo Sample.blank
    = (Ok reports, d', Sample.blank)
    ∧ length reports = 3%nat
    ∧ Forall (λ r, (0 <= r)%Q) reports.
Proof.
  destruct (rate_is_never_negative [(1 # 2, 1 # 2); (3 # 2, 3 # 2); (2, 2)]%Q
              Sample.yolo Sample.blank)
    as (reports & d' & Hrun & Hlen & Hall & _).
  - vm_compute. discriminate.
  - vm_compute. discriminate.
  - exists reports, d'. split; [exact Hrun|]. split; [exact Hlen | exact Hall].
Defined.

Lemma loop_exits_only_by_break_witness :
  ∃ s' w',
    while_running Sample.text_size
      [Sample.tick Sample.sees_person WriteOk (-1);
       Sample.tick Sample.sees_person WriteOk 113;
       Sample.tick Sample.sees_person WriteOk (-1)]
      Sample.system Sample.blank
    = (Ok Exited, s', w')
    ∧ s'.(is_running) = true.
Proof.
  assert (∃ s' w',
            while_running Sample.text_size
              [Sample.tick Sample.sees_person WriteOk (-1);
               Sample.tick Sample.sees_person WriteOk 113;
               Sample.tick Sample.sees_person WriteOk (-1)]
              Sample.system Sample.blank
            = (Ok Exited, s', w')) as (s' & w' & Hrun).
  { vm_compute. eexists _, _. reflexivity. }
  exists s', w'. split; [exact Hrun|].
  destruct (loop_exits_only_by_break Sample.text_size
              [Sample.tick Sample.sees_person WriteOk (-1);
               Sample.tick Sample.sees_person WriteOk 113;
               Sample.tick Sample.sees_person WriteOk (-1)]
              Sample.system s' Sample.blank w') as [Hflag _];
    [reflexivity | exact Hrun | exact Hflag].
Defined.

Lemma recording_changes_only_on_r_witness :
  (loop_body Sample.text_size (Sample.tick Sample.sees_person WriteOk 115)
     Sample.recording Sample.blank).1.2.(video_writer)
  = Some Sample.recorder.
Proof.
  apply (recording_changes_only_on_r Sample.text_size
           (Sample.tick Sample.sees_person WriteOk 115)
           Sample.recording Sample.blank).
  vm_compute. discriminate.
Defined.

Lemma toggle_recording_twice_witness :
  (do _ <- _toggle_recording 0 Sample.moment; _toggle_recording 0 Sample.moment)
    Sample.system Sample.holding
  = (Ok tt, Sample.system,
     logged Sample.holding
       [WriterOpen Sample.recorder;
        Print "Recording started: outputs/recording_20240309_140500.mp4";
        WriterRelease Sample.recorder; Print "Recording stopped"]).
Proof.
  apply (toggle_recording_twice 0 Sample.moment Sample.moment Sample.system
           Sample.holding Sample.image).
  reflexivity.
Defined.

Lemma recording_writes_every_frame_witness :
  ∃ s' w' es,
    while_running Sample.text_size
      [Sample.tick Sample.sees_person WriteOk (-1);
       Sample.tick (InferRaises (Exception "CUDA out of memory")) WriteOk 115;
       Sample.tick Sample.sees_person WriteOk 105]
      Sample.recording Sample.blank
    = (Ok Waiting, s', w')
    ∧ w'.(trace) = es
    ∧ count_events is_writer_write es = 3%nat
    ∧ count_events is_imshow es = 3%nat
    ∧ s'.(video_writer) = Some Sample.recorder.
Proof.
  destruct (recording_writes_every_frame Sample.text_size
              [Sample.tick Sample.sees_person WriteOk (-1);
               Sample.tick (InferRaises (Exception "CUDA out of memory")) WriteOk 115;
               Sample.tick Sample.sees_person WriteOk 105]
              Sample.recording Sample.blank Sample.capture Sample.recorder)
    as (s' & w' & es & Hrun & Htr & Hw & Hi & _ & Hvw); try reflexivity.
  exists s', w', es. split; [exact Hrun|]. split; [exact Htr|].
  split; [exact Hw|]. split; [exact Hi | exact Hvw].
Defined.

Lemma run_cleans_up_on_every_exit_witness :
  ∃ s' w',
    run Sample.text_size Sample.session Sample.system Sample.blank
    = (Ok Returned, s', w')
    ∧ is_available s'.(camera) = false.
Proof.
  assert (∃ s' w',
            run Sample.text_size Sample.session Sample.system Sample.blank
            = (Ok Returned, s', w')) as (s' & w' & Hrun).
  { vm_compute. eexists _, _. reflexivity. }
  exists s', w'. split; [exact Hrun|].
  destruct (run_cleans_up_on_every_exit Sample.text_size Sample.session
              Sample.system s' Sample.blank w') as [Hav _];
    [reflexivity | exact Hrun | exact Hav].
Defined.

Lemma keyboard_interrupt_ends_run_witness :
  ∃ s' w',
    run Sample.text_size
      [Sample.tick (InferRaises KeyboardInterrupt) WriteOk (-1);
       Sample.tick Sample.sees_person WriteOk (-1)]
      Sample.system Sample.blank
    = (Ok Returned, s', w')
    ∧ is_available s'.(camera) = false.
Proof.
  destruct (keyboard_interrupt_ends_run Sample.text_size []
              [Sample.tick Sample.sees_person WriteOk (-1)]
              (Sample.tick (InferRaises KeyboardInterrupt) WriteOk (-1))
              Sample.system (set_is_running true Sample.system) Sample.blank
              (logged Sample.blank
                 [Print ("Starting detection... (Press 'q' to quit)" +:+ NL)])
              Sample.capture 480 640 7)
    as (s' & w' & Hrun & _ & _ & Hav);
    [reflexivity | reflexivity | reflexivity | reflexivity | reflexivity
    | discriminate | reflexivity |].
  exists s', w'. split; [exact Hrun | exact Hav].
Defined.
